(** * simpleforce: the REST client of [force.go], embedded in Rocq

    Go strings are byte sequences: they are modelled as [string], whose
    characters ([ascii]) are exactly the 256 byte values.  Maps
    ([http.Header], the field bag of a record, the file system) are
    [gmap]s. *)

From Stdlib Require Import ZArith NArith Ascii String List Bool Lia.
From stdpp Require Import base option gmap strings list fin_maps.

Local Open Scope string_scope.
Set Warnings "-register-all".

(** ** Go's [strings] package, as far as the client uses it *)

Module strings.

(** [strings.HasSuffix]. *)
Definition HasSuffix (s suffix : string) : bool :=
  (String.length suffix <=? String.length s)%nat &&
  String.eqb
    (String.substring (String.length s - String.length suffix)
                      (String.length suffix) s)
    suffix.

(** [strings.TrimSuffix]: [s] without the trailing [suffix], once. *)
Definition TrimSuffix (s suffix : string) : string :=
  if HasSuffix s suffix
  then String.substring 0 (String.length s - String.length suffix) s
  else s.

(** [strings.Cut] for a one-byte separator: the text before the first
    [sep], the text after it, and whether [sep] occurs. *)
Fixpoint Cut (s : string) (sep : ascii) : string * string * bool :=
  match s with
  | EmptyString => (EmptyString, EmptyString, false)
  | String c rest =>
      if Ascii.eqb c sep then (EmptyString, rest, true)
      else let '(before, after, found) := Cut rest sep in
           (String c before, after, found)
  end.

(** [strings.Contains] for a one-byte pattern. *)
Fixpoint ContainsByte (s : string) (b : ascii) : bool :=
  match s with
  | EmptyString => false
  | String c rest => Ascii.eqb c b || ContainsByte rest b
  end.

(** The pieces of [s] between occurrences of [sep], in order
    ([strings.Split] for a one-byte separator). *)
Fixpoint Split (s : string) (sep : ascii) : list string :=
  match s with
  | EmptyString => [EmptyString]
  | String c rest =>
      match Split rest sep with
      | [] => [String c EmptyString]
      | piece :: pieces =>
          if Ascii.eqb c sep then EmptyString :: piece :: pieces
          else String c piece :: pieces
      end
  end.

(** [strings.Replace(s, old, new, -1)] for a one-byte [old]: every
    occurrence is replaced. *)
Fixpoint ReplaceByte (s : string) (old : ascii) (new : string) : string :=
  match s with
  | EmptyString => EmptyString
  | String c rest =>
      if Ascii.eqb c old then new ++ ReplaceByte rest old new
      else String c (ReplaceByte rest old new)
  end.

(** [strings.TrimRight(s, cutset)] for a one-byte cutset: every trailing
    occurrence is removed. *)
Fixpoint TrimRightByte (s : string) (b : ascii) : string :=
  match s with
  | EmptyString => EmptyString
  | String c rest =>
      match TrimRightByte rest b with
      | EmptyString => if Ascii.eqb c b then EmptyString
                       else String c EmptyString
      | kept => String c kept
      end
  end.

End strings.

(** ** Go's [net/url]: escaping, unescaping and query parsing *)

Module url.

Definition byte_in (lo hi : ascii) (c : ascii) : bool :=
  (N_of_ascii lo <=? N_of_ascii c)%N && (N_of_ascii c <=? N_of_ascii hi)%N.

Definition is_alnum (c : ascii) : bool :=
  byte_in "a" "z" c || byte_in "A" "Z" c || byte_in "0" "9" c.

Definition one_of (set : string) (c : ascii) : bool :=
  strings.ContainsByte set c.

(** [shouldEscape(c, encodePathSegment)]: alphanumerics and [-_.~] are
    kept; of the reserved bytes [$&+,/:;=?@] only [/ ; , ?] are escaped;
    every other byte is escaped. *)
Definition shouldEscape_pathSegment (c : ascii) : bool :=
  if is_alnum c then false
  else if one_of "-_.~" c then false
  else if one_of "$&+,/:;=?@" c then one_of "/;,?" c
  else true.

(** [shouldEscape(c, encodeQueryComponent)]: every reserved byte is
    escaped. *)
Definition shouldEscape_queryComponent (c : ascii) : bool :=
  if is_alnum c then false
  else if one_of "-_.~" c then false
  else true.

Definition upperhex : string := "0123456789ABCDEF".

Definition hexdigit (n : N) : ascii :=
  match String.get (N.to_nat n) upperhex with
  | Some d => d
  | None => "0"%char
  end.

(** The two hex digits written for a byte: [upperhex[c>>4]] and
    [upperhex[c&15]]. *)
Definition hex_hi (c : ascii) : ascii := hexdigit (N.shiftr (N_of_ascii c) 4).
Definition hex_lo (c : ascii) : ascii := hexdigit (N.land (N_of_ascii c) 15).

(** [url.PathEscape s = escape(s, encodePathSegment)]. *)
Fixpoint PathEscape (s : string) : string :=
  match s with
  | EmptyString => EmptyString
  | String c rest =>
      if shouldEscape_pathSegment c
      then String "%" (String (hex_hi c) (String (hex_lo c) (PathEscape rest)))
      else String c (PathEscape rest)
  end.

(** [url.QueryEscape s = escape(s, encodeQueryComponent)]: a space
    becomes [+]. *)
Fixpoint QueryEscape (s : string) : string :=
  match s with
  | EmptyString => EmptyString
  | String c rest =>
      if shouldEscape_queryComponent c
      then if Ascii.eqb c " " then String "+" (QueryEscape rest)
           else String "%" (String (hex_hi c) (String (hex_lo c) (QueryEscape rest)))
      else String c (QueryEscape rest)
  end.

Definition ishex (c : ascii) : bool :=
  byte_in "0" "9" c || byte_in "a" "f" c || byte_in "A" "F" c.

Definition unhex (c : ascii) : N :=
  if byte_in "0" "9" c then N_of_ascii c - N_of_ascii "0"
  else if byte_in "a" "f" c then N_of_ascii c - N_of_ascii "a" + 10
  else if byte_in "A" "F" c then N_of_ascii c - N_of_ascii "A" + 10
  else 0.

(** [unhex(a)<<4 | unhex(b)], as a byte. *)
Definition unhex2 (a b : ascii) : ascii :=
  ascii_of_N (N.lor (N.shiftl (unhex a) 4) (unhex b)).

(** [url.QueryUnescape s = unescape(s, encodeQueryComponent)]: [%XY]
    becomes the byte [XY], [+] becomes a space; a [%] that is not
    followed by two hex digits is an error ([None]). *)
Fixpoint QueryUnescape (s : string) : option string :=
  match s with
  | EmptyString => Some EmptyString
  | String c rest =>
      if Ascii.eqb c "%" then
        match rest with
        | String a (String b rest') =>
            if ishex a && ishex b
            then String (unhex2 a b) <$> QueryUnescape rest'
            else None
        | _ => None
        end
      else if Ascii.eqb c "+" then String " " <$> QueryUnescape rest
      else String c <$> QueryUnescape rest
  end.

(** [url.Values], in order of appearance. *)
Abbreviation Values := (list (string * string)).

(** One [&]-separated piece of a query, as [parseQuery] treats it: a
    piece holding a [;], an empty piece, and a piece whose key or value
    does not unescape are skipped. *)
Definition parsePiece (piece : string) : option (string * string) :=
  if strings.ContainsByte piece ";" then None
  else if String.eqb piece "" then None
  else
    let '(key, value, _) := strings.Cut piece "=" in
    match QueryUnescape key with
    | None => None
    | Some key' =>
        match QueryUnescape value with
        | None => None
        | Some value' => Some (key', value')
        end
    end.

(** [url.ParseQuery], its error dropped as [URL.Query] drops it.  The
    loop [for query != "" { key, query, _ = strings.Cut(query, "&") ... }]
    visits the [&]-separated pieces in order; the empty piece that
    [Split] yields for an empty or [&]-terminated query is skipped by
    the [key == ""] test. *)
Definition ParseQuery (query : string) : Values :=
  omap parsePiece (strings.Split query "&").

(** [Values.Get]: the first value of [key], or the empty string. *)
Fixpoint Get (v : Values) (key : string) : string :=
  match v with
  | [] => ""
  | (k, x) :: v' => if String.eqb k key then x else Get v' key
  end.

(** [Values.Has]. *)
Fixpoint Has (v : Values) (key : string) : bool :=
  match v with
  | [] => false
  | (k, _) :: v' => String.eqb k key || Has v' key
  end.

(** [URL.RawQuery] of a URL given as text: [url.Parse] first cuts the
    fragment at the first [#], then the query at the first [?]. *)
Definition RawQuery (rawURL : string) : string :=
  let '(rest, _, _) := strings.Cut rawURL "#" in
  let '(_, query, _) := strings.Cut rest "?" in
  query.

(** [u.Query()] for the URL [rawURL]. *)
Definition Query (rawURL : string) : Values := ParseQuery (RawQuery rawURL).

End url.

(** ** The shared vocabulary of both clients: errors, HTTP messages *)

(** Modelled from the spec: the error values of the package are declared
    outside the source files.  Following section 7, [ErrFailure] is the
    generic failure marker, which the client also returns when a required
    field is missing, and [SalesforceError] is a server-reported failure
    with its HTTP status and parsed payload.  [ExternalError] stands for
    an error raised by a collaborator (the transport, [encoding/json],
    [net/url], [os], a body reader).  A Go [error] value is
    [option GoError]; [None] is [nil]. *)
Inductive GoError : Type :=
  | ErrFailure
  | SalesforceError (httpCode : Z) (errorCode message : string)
  | ExternalError (what : string).

Abbreviation error := (option GoError).

(** [http.Header]: a map from header names to their values.  The client
    only uses the names [Content-Type] and [Accept], which are already in
    canonical MIME form, so [Get] and [Set] are a lookup and an insert. *)
Abbreviation Header := (gmap string (list string)).

Definition Header_Get (h : Header) (key : string) : string :=
  match h !! key with
  | Some (v :: _) => v
  | _ => ""
  end.

Definition Header_Set (h : Header) (key value : string) : Header :=
  <[key := [value]]> h.

(** A response body is a reader: the bytes it still delivers, and the
    read error, if any, that follows them instead of end-of-file. *)
Record Body : Type := mkBody {
  unread : string;
  fault : error
}.

(** [io.ReadAll]: every byte up to end-of-file, or the read error.  The
    reader is consumed: the second component is the reader as the call
    leaves it, with nothing more to deliver. *)
Definition io_ReadAll (b : Body) : (GoError + string) * Body :=
  (match fault b with
   | Some e => inl e
   | None => inr (unread b)
   end,
   mkBody "" (fault b)).

(** [io.NopCloser(bytes.NewBuffer(data))]. *)
Definition NewBuffer (data : string) : Body := mkBody data None.

Record Request : Type := mkRequest {
  Method : string;
  URL : string;
  ReqBody : option string;
  ReqHeader : Header
}.

Record Response : Type := mkResponse {
  StatusCode : Z;
  RespBody : Body
}.

(** The injected [*http.Client]: [Do] answers a request with a transport
    error or a response, and may depend on the requests sent before. *)
Abbreviation Transport := (list Request -> Request -> GoError + Response).

Definition MethodGet : string := "GET".
Definition MethodPost : string := "POST".
Definition MethodPatch : string := "PATCH".
Definition MethodDelete : string := "DELETE".
Definition StatusOK : Z := 200.
Definition StatusMultipleChoices : Z := 300.

(** ** The generic record *)

(** A dynamically typed field value, mirroring JSON's value model.  A
    number is kept as its literal. *)
Inductive Value : Type :=
  | VNull
  | VBool (b : bool)
  | VNumber (literal : string)
  | VString (s : string)
  | VList (items : list Value)
  | VObject (members : list (string * Value)).

(** Modelled from the spec: the type [SObject] and its methods are not
    among the source files.  Following sections 3 and 4.1, a record has a
    schema name and a field bag; the identifier is an ordinary field
    stored under a reserved key. *)
Record SObject : Type := mkSObject {
  sobjType : string;
  sobjFields : gmap string Value
}.

Module SObjectM.

(** Modelled from the spec: the reserved key of the identifier, which
    the spec leaves unnamed; the platform's name is used. *)
Definition sobjectIDKey : string := "Id".

(** Modelled from the spec: [type()] reads the schema name. *)
Definition Type' (obj : SObject) : string := sobjType obj.

(** Modelled from the spec: the typed accessor [string-field] is a
    best-effort cast that gives the empty string on a mismatch. *)
Definition StringField (obj : SObject) (key : string) : string :=
  match sobjFields obj !! key with
  | Some (VString s) => s
  | _ => ""
  end.

(** Modelled from the spec: [id()] reads the identifier field. *)
Definition ID (obj : SObject) : string := StringField obj sobjectIDKey.

(** Modelled from the spec: [set-id(value)] writes the identifier
    field. *)
Definition SetID (obj : SObject) (id : string) : SObject :=
  mkSObject (sobjType obj) (<[sobjectIDKey := VString id]> (sobjFields obj)).

(** Modelled from the spec: [set-field(name, value)]. *)
Definition Set' (obj : SObject) (key : string) (v : Value) : SObject :=
  mkSObject (sobjType obj) (<[key := v]> (sobjFields obj)).

(** Modelled from the spec: [redacted-copy(excluded-field-names)]
    returns a new value holding every field whose name is not in the
    exclusion set (case-sensitive exact match); the receiver is only
    read. *)
Definition makeCopy (obj : SObject) (blacklistedFields : list string)
  : gmap string Value :=
  filter (fun kv => kv.1 ∉ blacklistedFields) (sobjFields obj).

End SObjectM.

(** ** Running a method: the state it acts on

    A method of [*HTTPClient] runs against the client struct it points
    to, the requests sent so far, and the file system.  A method either
    returns or panics (a nil dereference). *)

Inductive Outcome (A : Type) : Type :=
  | Ret (a : A)
  | Panic.
Arguments Ret {A} a.
Arguments Panic {A}.

Record World (C : Type) : Type := mkWorld {
  client : C;
  sent : list Request;
  files : gmap string string
}.
Arguments mkWorld {C} client sent files.
Arguments client {C} w.
Arguments sent {C} w.
Arguments files {C} w.

Definition M (C A : Type) : Type := World C -> Outcome (A * World C).

Definition ret {C A} (a : A) : M C A := fun w => Ret (a, w).

Definition bind {C A B} (m : M C A) (k : A -> M C B) : M C B :=
  fun w => match m w with
           | Ret (a, w') => k a w'
           | Panic => Panic
           end.

Definition panic {C A} : M C A := fun _ => Panic.

Notation "'let!' x ':=' m 'in' k" := (bind m (fun x => k))
  (at level 10, x pattern, m at level 100, k at level 200, only parsing).

(** [os.Create]: the file exists and is empty afterwards, unless the
    call fails. *)
Definition os_Create {C} (os_Create_error : gmap string string -> string -> error)
    (path : string) : M C error :=
  fun w => match os_Create_error (files w) path with
           | Some e => Ret (Some e, w)
           | None => Ret (None, mkWorld (client w) (sent w)
                                        (<[path := ""]> (files w)))
           end.

(** [io.Copy(out, body)]: the bytes the body delivers are written to the
    file, and the first error met is returned.  [io_Write_error path data]
    tells whether writing [data] fails: [Some (n, e)] when the write
    fails with [e] after [n] bytes have reached the file.  Nothing is
    written for a body that delivers no byte, and every byte the body
    delivers is handed to the file before the read error of the body is
    looked at, so a write error comes first. *)
Definition io_Copy {C} (io_Write_error : string -> string -> option (nat * GoError))
    (path : string) (body : Body) : M C error :=
  fun w =>
    let data := unread body in
    match (if String.eqb data "" then None else io_Write_error path data) with
    | Some (n, e) =>
        Ret (Some e,
             mkWorld (client w) (sent w)
                     (<[path := String.substring 0 n data]> (files w)))
    | None =>
        Ret (fault body,
             mkWorld (client w) (sent w) (<[path := data]> (files w)))
    end.

(** [http.NewRequest]: the methods the clients pass are valid, so it
    fails exactly when [url.Parse] rejects the URL.  The new request has
    an empty header map. *)
Definition NewRequest (url_Parse_error : string -> error)
    (method url : string) (body : option string) : GoError + Request :=
  match url_Parse_error url with
  | Some e => inl e
  | None => inr (mkRequest method url body ∅)
  end.

(** [Header.Add]: the value is appended to the values of the key. *)
Definition Header_Add (h : Header) (key value : string) : Header :=
  <[key := (default [] (h !! key) ++ [value])%list]> h.

(** ** The client of [src/unnamed/part_000] *)

Module Current.

Record HTTPClient : Type := mkHTTPClient {
  httpClient : Transport;
  baseURL : string;
  apiVersion : string
}.

(** [NewHTTPClient]. *)
Definition NewHTTPClient (httpClient : Transport) (baseURL apiVersion : string)
  : HTTPClient :=
  let baseURL := strings.TrimSuffix baseURL "/" in
  mkHTTPClient httpClient baseURL apiVersion.

Record createSObjectResponse : Type := mkCreateResponse {
  ID : string;
  Success : bool
}.

Record QueryResult : Type := mkQueryResult {
  TotalSize : Z;
  Done : bool;
  NextRecordsURL : string;
  Records : list SObject
}.

(** Modelled from the spec: [SObjectMeta] is declared outside the source
    files; schema metadata is an opaque mapping. *)
Abbreviation SObjectMeta := (gmap string Value).

(** The collaborators of the client that are not its own code. *)
Record Collaborators : Type := mkCollaborators {
  (** The error of [url.Parse] inside [http.NewRequest], if any. *)
  url_Parse_error : string -> error;
  (** [json.Marshal] of a redacted copy. *)
  json_Marshal : gmap string Value -> GoError + string;
  (** [json.NewDecoder(body).Decode(&resData)] for the create response:
      an error, a nil pointer (the JSON text [null]) or a struct. *)
  Decode_createSObjectResponse
    : Body -> GoError + option createSObjectResponse;
  (** [Decode(sobj)]: the record after decoding into it, and the error. *)
  Decode_SObject : Body -> SObject -> SObject * error;
  Decode_QueryResult : Body -> GoError + QueryResult;
  Decode_SObjectMeta : Body -> GoError + SObjectMeta;
  (** The structured error payload (code and message) of a body, when
      it has one. *)
  Decode_errorPayload : string -> option (string * string);
  (** The error of [os.Create] on a path, if any. *)
  os_Create_error : gmap string string -> string -> error;
  (** Whether writing data to the file at a path fails, and after how
      many bytes. *)
  io_Write_error : string -> string -> option (nat * GoError)
}.

Section Methods.

(** The collaborators of the client that are not its own code. *)
Variable env : Collaborators.

(** Modelled from the spec: [parseSalesforceError] is not among the
    source files.  Following section 7, the error carries the HTTP
    status code and the parsed payload, and falls back to the generic
    failure marker when the body is absent or unparsable. *)
Definition parseSalesforceError (statusCode : Z) (body : string) : GoError :=
  match Decode_errorPayload env body with
  | Some (code, message) => SalesforceError statusCode code message
  | None => ErrFailure
  end.

(** [h.httpClient.Do(req)]. *)
Definition Do (req : Request) : M HTTPClient (GoError + Response) :=
  fun w => Ret (httpClient (client w) (sent w) req,
                mkWorld (client w) (sent w ++ [req]) (files w)).

(** The world after [Do] has sent [req]. *)
Definition after_send (w : World HTTPClient) (req : Request)
  : World HTTPClient :=
  mkWorld (client w) (sent w ++ [req]) (files w).

(** [request].  For a status outside 200 to 299, [io.ReadAll] consumes
    the reader the response points to; the response then gets a new
    reader over the bytes read (line 271). *)
Definition request (method url : string) (body : option string)
    (headers : option Header)
  : M HTTPClient (option Response * error) :=
  match NewRequest (url_Parse_error env) method url body with
  | inl err => ret (None, Some err)
  | inr req =>
      let headers := match headers with
                     | None => ∅
                     | Some headers => headers
                     end in
      let headers :=
        if (String.length (Header_Get headers "Content-Type") =? 0)%nat
        then Header_Set headers "Content-Type" "application/json"
        else headers in
      let req := mkRequest (Method req) (URL req) (ReqBody req) headers in
      let! res := Do req in
      match res with
      | inl err => ret (None, Some err)
      | inr res =>
          if ((StatusCode res <? StatusOK)
              || (StatusMultipleChoices <=? StatusCode res))%Z
          then
            match io_ReadAll (RespBody res) with
            | (inl err, _) => ret (None, Some err)
            | (inr body, consumed) =>
                let res := mkResponse (StatusCode res) consumed in
                let err := parseSalesforceError (StatusCode res) body in
                let res := mkResponse (StatusCode res) (NewBuffer body) in
                ret (Some res, Some err)
            end
          else ret (Some res, None)
      end
  end.

(** The header map that lines 248 to 256 of [request] put on the
    request, for the [headers] argument of the caller. *)
Definition requestHeader (headers : option Header) : Header :=
  let headers := match headers with
                 | None => ∅
                 | Some headers => headers
                 end in
  if (String.length (Header_Get headers "Content-Type") =? 0)%nat
  then Header_Set headers "Content-Type" "application/json"
  else headers.

(** The status test of [request]: outside 200 to 299. *)
Definition failedStatus (code : Z) : bool :=
  ((code <? StatusOK) || (StatusMultipleChoices <=? code))%Z.

(** The error [request] returns for a response whose status is outside
    200 to 299: the read error of the body, or the error parsed from
    it. *)
Definition failure_error (res : Response) : GoError :=
  match (io_ReadAll (RespBody res)).1 with
  | inl e => e
  | inr data => parseSalesforceError (StatusCode res) data
  end.

(** The URL rule of section 4.2:
    [{base}/services/data/{api-version}/{resource-path}]. *)
Definition endpoint (h : HTTPClient) (resource : string) : string :=
  baseURL h ++ "/services/data/" ++ apiVersion h ++ "/" ++ resource.

(** Between [w] and [w'] nothing was sent, or one request with this
    method and URL. *)
Definition sent_at_most (w w' : World HTTPClient) (method url : string)
  : Prop :=
  sent w' = sent w
  \/ exists req, sent w' = (sent w ++ [req])%list
                 /\ Method req = method /\ URL req = url.

(** The effect of an operation that returns: the client struct is the
    same, and at most one request went out, with this method and URL. *)
Definition op_effect (w w' : World HTTPClient) (method url : string) : Prop :=
  client w' = client w /\ sent_at_most w w' method url.

(** [makeURL]. *)
Definition makeURL (url : string) : M HTTPClient string :=
  fun w => let h := client w in
           Ret (baseURL h ++ "/services/data/" ++ apiVersion h ++ "/" ++ url, w).

(** After [if err != nil { return }], the code uses [res]: a nil
    [res] would be dereferenced. *)
Definition deref {A} (res : option Response) (k : Response -> M HTTPClient A)
  : M HTTPClient A :=
  match res with
  | Some res => k res
  | None => panic
  end.

(** [Query]. *)
Definition Query (query nextRecordsURL : string)
  : M HTTPClient (option QueryResult * error) :=
  fun w =>
    let h := client w in
    let path :=
      if (0 <? String.length nextRecordsURL)%nat then nextRecordsURL
      else "/services/data/" ++ apiVersion h ++ "/query?q="
             ++ url.PathEscape query in
    let url := baseURL h ++ path in
    (let! (res, err) := request MethodGet url None None in
     match err with
     | Some err => ret (None, Some err)
     | None =>
         deref res (fun res =>
           match Decode_QueryResult env (RespBody res) with
           | inl err => ret (None, Some err)
           | inr result => ret (Some result, None)
           end)
     end) w.

(** [DescribeSObject]. *)
Definition DescribeSObject (sobj : SObject)
  : M HTTPClient (option SObjectMeta * error) :=
  if String.eqb (SObjectM.Type' sobj) "" then ret (None, Some ErrFailure)
  else
    let! url := makeURL ("sobjects/" ++ SObjectM.Type' sobj ++ "/describe") in
    let! (res, err) := request MethodGet url None None in
    match err with
    | Some err => ret (None, Some err)
    | None =>
        deref res (fun res =>
          match Decode_SObjectMeta env (RespBody res) with
          | inl err => ret (None, Some err)
          | inr meta => ret (Some meta, None)
          end)
    end.

(** [CreateSObject].  The record is passed by pointer: the method
    returns the record as it is afterwards, next to the error. *)
Definition CreateSObject (sobj : SObject) (blacklistedFields : list string)
  : M HTTPClient (SObject * error) :=
  if String.eqb (SObjectM.Type' sobj) "" then ret (sobj, Some ErrFailure)
  else
    let reqObj := SObjectM.makeCopy sobj blacklistedFields in
    match json_Marshal env reqObj with
    | inl err => ret (sobj, Some err)
    | inr reqData =>
        let! url := makeURL ("sobjects/" ++ SObjectM.Type' sobj ++ "/") in
        let! (res, err) := request MethodPost url (Some reqData) None in
        match err with
        | Some err => ret (sobj, Some err)
        | None =>
            deref res (fun res =>
              match Decode_createSObjectResponse env (RespBody res) with
              | inl err => ret (sobj, Some err)
              | inr None => panic
              | inr (Some resData) =>
                  if negb (Success resData) || String.eqb (ID resData) ""
                  then ret (sobj, Some ErrFailure)
                  else ret (SObjectM.SetID sobj (ID resData), None)
              end)
        end
    end.

(** [GetSObject]. *)
Definition GetSObject (sobj : SObject) : M HTTPClient (SObject * error) :=
  if (String.length (SObjectM.Type' sobj) =? 0)%nat
  then ret (sobj, Some ErrFailure)
  else if (String.length (SObjectM.ID sobj) =? 0)%nat
  then ret (sobj, Some ErrFailure)
  else
    let! url := makeURL ("sobjects/" ++ SObjectM.Type' sobj ++ "/"
                           ++ SObjectM.ID sobj) in
    let! (res, err) := request MethodGet url None None in
    match err with
    | Some err => ret (sobj, Some err)
    | None =>
        deref res (fun res =>
          let '(sobj', err) := Decode_SObject env (RespBody res) sobj in
          match err with
          | Some err => ret (sobj', Some err)
          | None => ret (sobj', None)
          end)
    end.

(** [UpdateSObject]. *)
Definition UpdateSObject (sobj : SObject) (blacklistedFields : list string)
  : M HTTPClient (SObject * error) :=
  if String.eqb (SObjectM.Type' sobj) "" then ret (sobj, Some ErrFailure)
  else if String.eqb (SObjectM.ID sobj) "" then ret (sobj, Some ErrFailure)
  else
    let reqObj := SObjectM.makeCopy sobj blacklistedFields in
    match json_Marshal env reqObj with
    | inl err => ret (sobj, Some err)
    | inr reqData =>
        let! url := makeURL ("sobjects/" ++ SObjectM.Type' sobj ++ "/"
                               ++ SObjectM.ID sobj) in
        let! (res, err) := request MethodPatch url (Some reqData) None in
        match err with
        | Some err => ret (sobj, Some err)
        | None => deref res (fun _ => ret (sobj, None))
        end
    end.

(** [DeleteSObject]. *)
Definition DeleteSObject (sobj : SObject) : M HTTPClient (SObject * error) :=
  if (String.length (SObjectM.Type' sobj) =? 0)%nat
  then ret (sobj, Some ErrFailure)
  else if (String.length (SObjectM.ID sobj) =? 0)%nat
  then ret (sobj, Some ErrFailure)
  else
    let! url := makeURL ("sobjects/" ++ SObjectM.Type' sobj ++ "/"
                           ++ SObjectM.ID sobj) in
    let! (_, err) := request MethodDelete url None None in
    match err with
    | Some err => ret (sobj, Some err)
    | None => ret (sobj, None)
    end.

(** The headers [DownloadFile] and [DescribeGlobal] pass. *)
Definition jsonHeaders : Header :=
  Header_Set
    (Header_Set ∅ "Content-Type" "application/json; charset=UTF-8")
    "Accept" "application/json".

(** [DownloadFile]. *)
Definition DownloadFile (contentVersionID filepath : string) : M HTTPClient error :=
  fun w =>
    let h := client w in
    let path := "/services/data/" ++ apiVersion h
                  ++ "/sobjects/ContentVersion/" ++ contentVersionID
                  ++ "/VersionData" in
    let url := baseURL h ++ path in
    (let! (res, err) := request MethodGet url None (Some jsonHeaders) in
     match err with
     | Some err => ret (Some err)
     | None =>
         deref res (fun res =>
           let! err := os_Create (os_Create_error env) filepath in
           match err with
           | Some err => ret (Some err)
           | None => io_Copy (io_Write_error env) filepath (RespBody res)
           end)
     end) w.

(** [DescribeGlobal]. *)
Definition DescribeGlobal : M HTTPClient (option SObjectMeta * error) :=
  fun w =>
    let h := client w in
    let path := "/services/data/" ++ apiVersion h ++ "/sobjects" in
    let url := baseURL h ++ path in
    (let! (res, err) := request MethodGet url None (Some jsonHeaders) in
     match err with
     | Some err => ret (None, Some err)
     | None =>
         deref res (fun res =>
           match Decode_SObjectMeta env (RespBody res) with
           | inl err => ret (None, Some err)
           | inr meta => ret (Some meta, None)
           end)
     end) w.

End Methods.

End Current.

(** ** The client of [src/force.go]

    The earlier design of the same client.  Its [Query] and [SObject]
    methods work through the record's client reference and are not needed
    by the properties below. *)

Module Legacy.

Record HTTPClient : Type := mkHTTPClient {
  httpClient : Transport;
  baseURL : string;
  apiVersion : string;
  instanceURL : string
}.

(** [NewHTTPClient]: [instanceURL] keeps its zero value. *)
Definition NewHTTPClient (httpClient : Transport) (url apiVersion : string)
  : HTTPClient :=
  let client := mkHTTPClient httpClient url apiVersion "" in
  if negb (strings.HasSuffix (baseURL client) "/")
  then mkHTTPClient (Legacy.httpClient client) (baseURL client ++ "/")
                    (Legacy.apiVersion client) (instanceURL client)
  else client.

(** [makeURL]: the first statement assigns to [h.apiVersion]. *)
Definition makeURL (req : string) : M HTTPClient string :=
  fun w =>
    let h := client w in
    let h := mkHTTPClient (httpClient h) (baseURL h)
                          (strings.ReplaceByte (apiVersion h) "v" "")
                          (instanceURL h) in
    let retURL := instanceURL h ++ "/services/data/v" ++ apiVersion h
                    ++ "/" ++ req in
    Ret (retURL, mkWorld h (sent w) (files w)).

Section Methods.

Variable url_Parse_error : string -> error.
Variable os_Create_error : gmap string string -> string -> error.
Variable io_Write_error : string -> string -> option (nat * GoError).

Definition Do (req : Request) : M HTTPClient (GoError + Response) :=
  fun w => Ret (httpClient (client w) (sent w) req,
                mkWorld (client w) (sent w ++ [req]) (files w)).

(** The URL [DownloadFile] requests. *)
Definition DownloadFile_url (h : HTTPClient) (contentVersionID : string)
  : string :=
  let apiPath := "/services/data/v" ++ apiVersion h
                   ++ "/sobjects/ContentVersion/" ++ contentVersionID
                   ++ "/VersionData" in
  let baseURL := strings.TrimRightByte (baseURL h) "/" in
  baseURL ++ apiPath.

(** [DownloadFile]: the status code of the response is not looked
    at. *)
Definition DownloadFile (contentVersionID filepath : string)
  : M HTTPClient error :=
  fun w =>
    let url := DownloadFile_url (client w) contentVersionID in
    match NewRequest url_Parse_error MethodGet url None with
    | inl err => Ret (Some err, w)
    | inr req =>
        let header :=
          Header_Add
            (Header_Add (ReqHeader req)
                        "Content-Type" "application/json; charset=UTF-8")
            "Accept" "application/json" in
        let req := mkRequest (Method req) (URL req) (ReqBody req) header in
        (let! resp := Do req in
         match resp with
         | inl err => ret (Some err)
         | inr resp =>
             let! err := os_Create os_Create_error filepath in
             match err with
             | Some err => ret (Some err)
             | None => io_Copy io_Write_error filepath (RespBody resp)
             end
         end) w
    end.

(** The structured error payload (code and message) of a body, when it
    has one. *)
Variable Decode_errorPayload : string -> option (string * string).
(** [json.Unmarshal(respData, &meta)]. *)
Variable Unmarshal_SObjectMeta : string -> GoError + gmap string Value.

(** Modelled from the spec: [ParseSalesforceError] is not among the
    source files.  Following section 7, the error carries the HTTP
    status code and the parsed payload, and falls back to the generic
    failure marker when the body is absent or unparsable. *)
Definition ParseSalesforceError (statusCode : Z) (body : string) : GoError :=
  match Decode_errorPayload body with
  | Some (code, message) => SalesforceError statusCode code message
  | None => ErrFailure
  end.

(** [ioutil.ReadAll]: the bytes read, and the read error. *)
Definition ioutil_ReadAll (b : Body) : string * error :=
  (unread b, fault b).

(** [httpRequest]: the bytes of the response, or an error.  For a status
    outside 200 to 299, [buf.ReadFrom] collects the bytes the body
    delivers and its error is dropped. *)
Definition httpRequest (method url : string) (body : option string)
  : M HTTPClient (option string * error) :=
  match NewRequest url_Parse_error method url body with
  | inl err => ret (None, Some err)
  | inr req =>
      let header := Header_Add (ReqHeader req) "Content-Type" "application/json" in
      let req := mkRequest (Method req) (URL req) (ReqBody req) header in
      let! resp := Do req in
      match resp with
      | inl err => ret (None, Some err)
      | inr resp =>
          if ((StatusCode resp <? 200) || (299 <? StatusCode resp))%Z
          then
            let buf := unread (RespBody resp) in
            let theError := ParseSalesforceError (StatusCode resp) buf in
            ret (None, Some theError)
          else
            let '(data, err) := ioutil_ReadAll (RespBody resp) in
            ret (Some data, err)
      end
  end.

(** The URL [DescribeGlobal] requests. *)
Definition DescribeGlobal_url (h : HTTPClient) : string :=
  let apiPath := "/services/data/v" ++ apiVersion h ++ "/sobjects" in
  let baseURL := strings.TrimRightByte (baseURL h) "/" in
  baseURL ++ apiPath.

(** [DescribeGlobal]: neither the status code nor the read error of the
    body decides the result; the read error is only logged. *)
Definition DescribeGlobal : M HTTPClient (option (gmap string Value) * error) :=
  fun w =>
    let url := DescribeGlobal_url (client w) in
    match NewRequest url_Parse_error MethodGet url None with
    | inl err => Ret ((None, Some err), w)
    | inr req =>
        let header :=
          Header_Add
            (Header_Add (ReqHeader req)
                        "Content-Type" "application/json; charset=UTF-8")
            "Accept" "application/json" in
        let req := mkRequest (Method req) (URL req) (ReqBody req) header in
        (let! resp := Do req in
         match resp with
         | inl err => ret (None, Some err)
         | inr resp =>
             let '(respData, _) := ioutil_ReadAll (RespBody resp) in
             match Unmarshal_SObjectMeta respData with
             | inl err => ret (None, Some err)
             | inr meta => ret (Some meta, None)
             end
         end) w
    end.

End Methods.

End Legacy.

(** ** Sample collaborators and inputs *)

Module Sample.

(** A decoder for the create response that reads the body text
    [null] as a nil pointer, [failure] as a reported failure and any
    other text as the identifier of a success. *)
Definition decodeCreate (b : Body)
  : GoError + option Current.createSObjectResponse :=
  match fault b with
  | Some e => inl e
  | None =>
      if String.eqb (unread b) "null" then inr None
      else if String.eqb (unread b) "failure"
      then inr (Some (Current.mkCreateResponse "" false))
      else inr (Some (Current.mkCreateResponse (unread b) true))
  end.

Definition env : Current.Collaborators :=
  Current.mkCollaborators
    (fun _ => None)
    (fun _ => inr "{}")
    decodeCreate
    (fun _ sobj => (sobj, None))
    (fun _ => inr (Current.mkQueryResult 0 true "" []))
    (fun _ => inr ∅)
    (fun _ => None)
    (fun _ _ => None)
    (fun _ _ => None).

(** A transport that answers every request with the same response. *)
Definition always (res : Response) : Transport := fun _ _ => inr res.

Definition world (t : Transport) : World Current.HTTPClient :=
  mkWorld (Current.NewHTTPClient t "https://example.my.salesforce.com/" "v43.0")
          [] ∅.

Definition case : SObject :=
  mkSObject "Case" {[ "Foo" := VString "bar" ]}.

Definition case1 : SObject := SObjectM.SetID case "object1".

(** Collaborators whose [json.Marshal] fails. *)
Definition env_marshal_fails : Current.Collaborators :=
  Current.mkCollaborators
    (Current.url_Parse_error env)
    (fun _ => inl (ExternalError "json: unsupported value"))
    (Current.Decode_createSObjectResponse env)
    (Current.Decode_SObject env)
    (Current.Decode_QueryResult env)
    (Current.Decode_SObjectMeta env)
    (Current.Decode_errorPayload env)
    (Current.os_Create_error env)
    (Current.io_Write_error env).

(** Collaborators whose [os.Create] fails. *)
Definition env_create_fails : Current.Collaborators :=
  Current.mkCollaborators
    (Current.url_Parse_error env)
    (Current.json_Marshal env)
    (Current.Decode_createSObjectResponse env)
    (Current.Decode_SObject env)
    (Current.Decode_QueryResult env)
    (Current.Decode_SObjectMeta env)
    (Current.Decode_errorPayload env)
    (fun _ _ => Some (ExternalError "open: permission denied"))
    (Current.io_Write_error env).

(** Collaborators whose file writes fail after three bytes. *)
Definition env_write_fails : Current.Collaborators :=
  Current.mkCollaborators
    (Current.url_Parse_error env)
    (Current.json_Marshal env)
    (Current.Decode_createSObjectResponse env)
    (Current.Decode_SObject env)
    (Current.Decode_QueryResult env)
    (Current.Decode_SObjectMeta env)
    (Current.Decode_errorPayload env)
    (Current.os_Create_error env)
    (fun _ _ => Some (3%nat, ExternalError "write: no space left on device")).

(** A world of the earlier client. *)
Definition legacy_world (t : Transport) (apiVersion : string)
  : World Legacy.HTTPClient :=
  mkWorld (Legacy.NewHTTPClient t "https://example.my.salesforce.com" apiVersion)
          [] ∅.

End Sample.

(** * Properties *)

Example PathEscape_soql :
  url.PathEscape "SELECT Id FROM Account" = "SELECT%20Id%20FROM%20Account".
Proof. reflexivity. Qed.

Example PathEscape_keeps_plus : url.PathEscape "a+b&c=d" = "a+b&c=d".
Proof. reflexivity. Qed.

Example Query_soql :
  url.Get (url.Query "http://h/services/data/v43.0/query?q=SELECT%20Id%20FROM%20Account") "q"
  = "SELECT Id FROM Account".
Proof. reflexivity. Qed.

Example TrimSuffix_once : strings.TrimSuffix "http://h//" "/" = "http://h/".
Proof. reflexivity. Qed.


(** ** Facts about the string helpers *)

Lemma HasSuffix_cons c c' rest :
  strings.HasSuffix (String c (String c' rest)) "/"
  = strings.HasSuffix (String c' rest) "/".
Proof.
  unfold strings.HasSuffix. cbn [String.length Nat.leb andb].
  replace (S (S (String.length rest)) - 1)%nat with (S (String.length rest)) by lia.
  replace (S (String.length rest) - 1)%nat with (String.length rest) by lia.
  reflexivity.
Qed.

Lemma HasSuffix_slash_inv s :
  strings.HasSuffix s "/" = true ->
  s = strings.TrimSuffix s "/" ++ "/".
Proof.
  induction s as [|c rest IH]; [discriminate|].
  destruct rest as [|c' rest'].
  - unfold strings.TrimSuffix. intros H. rewrite H.
    unfold strings.HasSuffix in H. cbn in H.
    destruct (Ascii.eqb_spec c "/") as [->|]; [reflexivity|discriminate].
  - rewrite HasSuffix_cons. intros H. specialize (IH H).
    unfold strings.TrimSuffix in *.
    rewrite HasSuffix_cons, H in *.
    cbn [String.length] in *.
    replace (S (S (String.length rest')) - 1)%nat
      with (S (String.length rest')) by lia.
    replace (S (String.length rest') - 1)%nat
      with (String.length rest') in IH by lia.
    change (String c (String c' rest')
            = String c (String.substring 0 (String.length rest') (String c' rest')
                          ++ "/")).
    f_equal. exact IH.
Qed.

Lemma TrimSuffix_absent s :
  strings.HasSuffix s "/" = false -> strings.TrimSuffix s "/" = s.
Proof. unfold strings.TrimSuffix. intros ->. reflexivity. Qed.

(** [io.Copy] always returns, and touches nothing but the files. *)
Lemma io_Copy_returns {C} write_error path body (w : World C) :
  exists err fs,
    io_Copy write_error path body w = Ret (err, mkWorld (client w) (sent w) fs).
Proof.
  unfold io_Copy.
  destruct (if String.eqb (unread body) "" then None
            else write_error path (unread body)) as [[n e]|];
    eexists _, _; reflexivity.
Qed.

(** ** The request-dispatch routine of the current client *)

Section RequestDispatch.

Variable env : Current.Collaborators.

(** [request], unfolded into the cases of its control flow. *)
Lemma request_outcome method url body headers w :
  Current.request env method url body headers w =
  match Current.url_Parse_error env url with
  | Some e => Ret ((None, Some e), w)
  | None =>
      let req := mkRequest method url body (Current.requestHeader headers) in
      let w' := Current.after_send w req in
      match Current.httpClient (client w) (sent w) req with
      | inl e => Ret ((None, Some e), w')
      | inr res =>
          if Current.failedStatus (StatusCode res)
          then match (io_ReadAll (RespBody res)).1 with
               | inl e => Ret ((None, Some e), w')
               | inr data =>
                   Ret ((Some (mkResponse (StatusCode res) (NewBuffer data)),
                         Some (Current.parseSalesforceError env
                                 (StatusCode res) data)), w')
               end
          else Ret ((Some res, None), w')
      end
  end.
Proof.
  unfold Current.request, NewRequest.
  destruct (Current.url_Parse_error env url); [reflexivity|].
  unfold bind, Current.Do, Current.requestHeader, Current.failedStatus,
    Current.after_send; cbn.
  destruct headers as [hs|];
    destruct (Current.httpClient (client w) (sent w) _) as [e|res];
    try reflexivity;
    destruct (_ || _)%Z; try reflexivity;
    unfold io_ReadAll; cbn [fst];
    destruct (fault (RespBody res)); reflexivity.
Qed.

(** [request] always returns; it leaves the client and the files as
    they are, and sends at most one request. *)
Lemma request_returns method url body headers w :
  exists res err w',
    Current.request env method url body headers w = Ret ((res, err), w')
    /\ client w' = client w /\ files w' = files w
    /\ (sent w' = sent w
        \/ w' = Current.after_send w
                  (mkRequest method url body (Current.requestHeader headers)))
    /\ (err = None -> exists r, res = Some r).
Proof.
  rewrite request_outcome.
  destruct (Current.url_Parse_error env url) as [e|].
  { exists None, (Some e), w. repeat split; auto; discriminate. }
  cbv zeta.
  destruct (Current.httpClient _ _ _) as [e|res].
  { eexists _, _, _. split; [reflexivity|].
    repeat split; eauto; discriminate. }
  destruct (Current.failedStatus (StatusCode res)).
  - destruct (io_ReadAll (RespBody res)) as [[e|data] consumed];
      (eexists _, _, _; split; [reflexivity|];
       repeat split; eauto; discriminate).
  - eexists _, _, _; split; [reflexivity|]. repeat split; eauto.
Qed.

Lemma failedStatus_true code :
  Current.failedStatus code = true <-> (code < 200 \/ 299 < code)%Z.
Proof.
  unfold Current.failedStatus, StatusOK, StatusMultipleChoices.
  rewrite orb_true_iff, Z.ltb_lt, Z.leb_le. lia.
Qed.

Lemma failedStatus_false code :
  Current.failedStatus code = false <-> (200 <= code <= 299)%Z.
Proof.
  unfold Current.failedStatus, StatusOK, StatusMultipleChoices.
  rewrite orb_false_iff, Z.ltb_ge, Z.leb_gt. lia.
Qed.

(** Reading a body to its end leaves nothing to read: a second read of
    the same reader delivers no byte. *)
Lemma io_ReadAll_consumes b :
  fault b = None ->
  (io_ReadAll b).1 = inr (unread b)
  /\ (io_ReadAll (io_ReadAll b).2).1 = inr "".
Proof. unfold io_ReadAll. intros ->. split; reflexivity. Qed.

(** C6 (amended): when the transport answers with a response whose
    status is outside 200-299 and whose body can be read to its end,
    [request] reads the entire body, which leaves that reader with
    nothing more to deliver, returns the error parsed from the status
    code and the body bytes, and returns the response with a new body in
    place of the consumed one, from which all the original bytes can be
    read again; when reading the body fails, it returns no response and
    the read error; for a status in 200-299 it returns the response as
    the transport gave it, its body not read, and a nil error. *)
Theorem request_status_handling method url body headers w res :
  Current.url_Parse_error env url = None ->
  Current.httpClient (client w) (sent w)
    (mkRequest method url body (Current.requestHeader headers)) = inr res ->
  let w' := Current.after_send w
              (mkRequest method url body (Current.requestHeader headers)) in
  ((StatusCode res < 200 \/ 299 < StatusCode res)%Z ->
     (fault (RespBody res) = None ->
        exists returned,
          Current.request env method url body headers w =
            Ret ((Some returned,
                  Some (Current.parseSalesforceError env (StatusCode res)
                          (unread (RespBody res)))), w')
          /\ StatusCode returned = StatusCode res
          /\ (io_ReadAll (RespBody returned)).1 = inr (unread (RespBody res))
          /\ (io_ReadAll (io_ReadAll (RespBody res)).2).1 = inr "")
     /\ (forall e, fault (RespBody res) = Some e ->
           Current.request env method url body headers w =
             Ret ((None, Some e), w')))
  /\ ((200 <= StatusCode res <= 299)%Z ->
        Current.request env method url body headers w =
          Ret ((Some res, None), w')).
Proof.
  intros Hurl Hdo w'. rewrite request_outcome, Hurl. cbv zeta. rewrite Hdo.
  split.
  - intros Hcode. apply failedStatus_true in Hcode. rewrite Hcode. split.
    + intros Hfault.
      destruct (io_ReadAll_consumes (RespBody res) Hfault) as [Hread Hagain].
      rewrite Hread. eexists. split; [reflexivity|].
      split; [reflexivity|]. split; [reflexivity|exact Hagain].
    + intros e Hfault. unfold io_ReadAll. cbn [fst]. rewrite Hfault.
      reflexivity.
  - intros Hcode. apply failedStatus_false in Hcode. rewrite Hcode.
    reflexivity.
Qed.

(** Without the assignment of a new body, the response would come back
    with the consumed reader: for a body that holds bytes, the body
    [request] returns is not the one the read left behind. *)
Lemma request_body_is_not_the_consumed_one method url body headers w res returned err w' :
  Current.request env method url body headers w = Ret ((Some returned, Some err), w') ->
  Current.httpClient (client w) (sent w)
    (mkRequest method url body (Current.requestHeader headers)) = inr res ->
  unread (RespBody res) <> "" ->
  RespBody returned <> (io_ReadAll (RespBody res)).2
  /\ unread (RespBody returned) = unread (RespBody res).
Proof.
  rewrite request_outcome.
  destruct (Current.url_Parse_error env url); [discriminate|].
  cbv zeta. intros Hrun Hdo Hbytes. rewrite Hdo in Hrun.
  destruct (Current.failedStatus (StatusCode res)); [|discriminate].
  unfold io_ReadAll in *. cbn [fst snd] in *.
  destruct (fault (RespBody res)); [discriminate|].
  injection Hrun as <- _ _. cbn [RespBody unread]. split; [|reflexivity].
  intros H. apply (f_equal unread) in H. cbn [unread NewBuffer] in H.
  congruence.
Qed.

(** C7 (amended): the request that [request] sends carries
    [Content-Type: application/json] alone when the caller passes no
    headers; it carries exactly the caller's headers when they hold a
    non-empty [Content-Type]; and it carries the caller's headers with
    [Content-Type: application/json] added to them when they hold no
    [Content-Type] or an empty one. *)
Theorem request_header_rule method url body headers w :
  Current.url_Parse_error env url = None ->
  exists result hdr,
    Current.request env method url body headers w =
      Ret (result, Current.after_send w (mkRequest method url body hdr))
    /\ (headers = None -> hdr = {[ "Content-Type" := ["application/json"] ]})
    /\ (forall hs, headers = Some hs ->
          Header_Get hs "Content-Type" <> "" -> hdr = hs)
    /\ (forall hs, headers = Some hs ->
          Header_Get hs "Content-Type" = "" ->
          hdr = <["Content-Type" := ["application/json"]]> hs).
Proof.
  intros Hurl.
  assert (Hret : exists result,
    Current.request env method url body headers w =
      Ret (result, Current.after_send w
                     (mkRequest method url body (Current.requestHeader headers)))).
  { rewrite request_outcome, Hurl. cbv zeta.
    destruct (Current.httpClient _ _ _) as [e|res]; [eauto|].
    destruct (Current.failedStatus _); [|eauto].
    destruct (io_ReadAll _) as [[?|?] ?]; eauto. }
  destruct Hret as [result Hret].
  exists result, (Current.requestHeader headers). split; [exact Hret|].
  unfold Current.requestHeader, Header_Set. repeat split.
  - intros ->. reflexivity.
  - intros hs -> Hct.
    destruct (Header_Get hs "Content-Type"); [congruence|reflexivity].
  - intros hs -> ->. reflexivity.
Qed.

End RequestDispatch.

(** ** The operations of the current client *)

Section Operations.

Variable env : Current.Collaborators.

Lemma eqb_empty_length s : (String.length s =? 0)%nat = String.eqb s "".
Proof. destruct s; reflexivity. Qed.

(** C2: a record whose type is empty makes [CreateSObject],
    [GetSObject], [UpdateSObject] and [DeleteSObject] return the
    validation error with the world, and so the list of requests sent,
    exactly as it was; a record whose id is empty does the same for
    [GetSObject] and [DeleteSObject], whatever its type. *)
Theorem validation_precedes_io sobj blacklist w :
  (SObjectM.Type' sobj = "" ->
     Current.CreateSObject env sobj blacklist w = Ret ((sobj, Some ErrFailure), w)
     /\ Current.GetSObject env sobj w = Ret ((sobj, Some ErrFailure), w)
     /\ Current.UpdateSObject env sobj blacklist w = Ret ((sobj, Some ErrFailure), w)
     /\ Current.DeleteSObject env sobj w = Ret ((sobj, Some ErrFailure), w))
  /\ (SObjectM.ID sobj = "" ->
        Current.GetSObject env sobj w = Ret ((sobj, Some ErrFailure), w)
        /\ Current.DeleteSObject env sobj w = Ret ((sobj, Some ErrFailure), w)).
Proof.
  unfold Current.CreateSObject, Current.GetSObject, Current.UpdateSObject,
    Current.DeleteSObject.
  rewrite !eqb_empty_length.
  split.
  - intros ->. cbn. repeat split.
  - intros ->. cbn. destruct (String.eqb _ ""); split; reflexivity.
Qed.

(** [makeURL] applies the URL rule and changes nothing. *)
Lemma makeURL_endpoint resource w :
  Current.makeURL resource w = Ret (Current.endpoint (client w) resource, w).
Proof. reflexivity. Qed.

(** C1: for a record with non-empty type whose create request is
    answered with a 2xx response, a decoded [success=true] with a
    non-empty id makes [CreateSObject] return nil with the record's ID
    set to that id; a decoded [success=false] or empty id makes it return
    the failure error with the record as it was.  Whenever
    [CreateSObject] returns an error the record is unchanged. *)
Theorem CreateSObject_assigns_id_on_success
    sobj blacklist w reqData res resData :
  SObjectM.Type' sobj <> "" ->
  Current.json_Marshal env (SObjectM.makeCopy sobj blacklist) = inr reqData ->
  let url := Current.endpoint (client w)
               ("sobjects/" ++ SObjectM.Type' sobj ++ "/") in
  let req := mkRequest MethodPost url (Some reqData)
               {[ "Content-Type" := ["application/json"] ]} in
  Current.url_Parse_error env url = None ->
  Current.httpClient (client w) (sent w) req = inr res ->
  (200 <= StatusCode res <= 299)%Z ->
  Current.Decode_createSObjectResponse env (RespBody res) = inr (Some resData) ->
  (Current.Success resData = true /\ Current.ID resData <> "" ->
     Current.CreateSObject env sobj blacklist w =
       Ret ((SObjectM.SetID sobj (Current.ID resData), None),
            Current.after_send w req)
     /\ SObjectM.ID (SObjectM.SetID sobj (Current.ID resData))
        = Current.ID resData)
  /\ (Current.Success resData = false \/ Current.ID resData = "" ->
        Current.CreateSObject env sobj blacklist w =
          Ret ((sobj, Some ErrFailure), Current.after_send w req))
  /\ (forall sobj' e w',
        Current.CreateSObject env sobj blacklist w = Ret ((sobj', Some e), w') ->
        sobj' = sobj).
Proof.
  intros Hty Hmarshal url req Hurl Hdo Hcode Hdecode.
  assert (Hrun : Current.CreateSObject env sobj blacklist w =
    if negb (Current.Success resData) || String.eqb (Current.ID resData) ""
    then Ret ((sobj, Some ErrFailure), Current.after_send w req)
    else Ret ((SObjectM.SetID sobj (Current.ID resData), None),
              Current.after_send w req)).
  { unfold Current.CreateSObject.
    apply String.eqb_neq in Hty. rewrite Hty, Hmarshal.
    unfold bind at 1. rewrite makeURL_endpoint.
    unfold bind. rewrite request_outcome. fold url. rewrite Hurl.
    cbv zeta. change (Current.requestHeader None) with (ReqHeader req).
    change (mkRequest MethodPost url (Some reqData) (ReqHeader req)) with req.
    rewrite Hdo.
    apply failedStatus_false in Hcode. rewrite Hcode.
    unfold Current.deref. rewrite Hdecode.
    destruct (negb _ || _); reflexivity. }
  split; [|split].
  - intros [Hs Hid]. apply String.eqb_neq in Hid.
    rewrite Hrun, Hs, Hid. split; [reflexivity|].
    unfold SObjectM.ID, SObjectM.StringField, SObjectM.SetID. cbn.
    rewrite lookup_insert_eq. reflexivity.
  - intros [Hs|Hid]; rewrite Hrun.
    + rewrite Hs. reflexivity.
    + rewrite Hid, orb_true_r. reflexivity.
  - intros sobj' e w'. rewrite Hrun.
    destruct (negb _ || _); intros [= <- _ _]; reflexivity.
Qed.

(** What one call of [request] does to the world. *)
Lemma request_effect method url body headers w result w' :
  Current.request env method url body headers w = Ret (result, w') ->
  client w' = client w /\ files w' = files w
  /\ Current.sent_at_most w w' method url
  /\ (result.2 = None -> exists r, result.1 = Some r).
Proof.
  destruct (request_returns env method url body headers w)
    as (res & err & w1 & Hreq & Hc & Hf & Hs & Hres).
  rewrite Hreq. intros [= <- <-]. repeat split; auto.
  destruct Hs as [Hs| ->]; [left; exact Hs|].
  right. eexists. repeat split.
Qed.

Lemma request_never_panics method url body headers w :
  Current.request env method url body headers w <> Panic.
Proof.
  destruct (request_returns env method url body headers w)
    as (res & err & w1 & Hreq & _).
  rewrite Hreq. discriminate.
Qed.

(** Splits a call of [request] inside an operation into its result and
    the facts of [request_effect]. *)
Ltac step_request :=
  unfold bind;
  match goal with
  | |- context [Current.request env ?m ?u ?b ?h ?w] =>
      let H := fresh "Hreq" in
      let res := fresh "res" in
      let rerr := fresh "rerr" in
      let wreq := fresh "wreq" in
      destruct (Current.request env m u b h w) as [[[res [rerr|]] wreq]|] eqn:H;
      [apply request_effect in H; cbn [fst snd] in H;
       destruct H as (? & ? & ? & ?) ..
      |exfalso; exact (request_never_panics _ _ _ _ _ H)]
  end.

(** C9: whatever [UpdateSObject] returns, and so also when it succeeds,
    the record afterwards is the record before: same type, same id,
    same fields. *)
Theorem UpdateSObject_keeps_record sobj blacklist w sobj' err w' :
  Current.UpdateSObject env sobj blacklist w = Ret ((sobj', err), w') ->
  sobj' = sobj
  /\ SObjectM.Type' sobj' = SObjectM.Type' sobj
  /\ SObjectM.ID sobj' = SObjectM.ID sobj
  /\ sobjFields sobj' = sobjFields sobj.
Proof.
  intros Hrun. assert (sobj' = sobj) as ->; [|repeat split].
  revert Hrun. unfold Current.UpdateSObject.
  destruct (String.eqb (SObjectM.Type' sobj) ""); [intros [= <- _ _]; reflexivity|].
  destruct (String.eqb (SObjectM.ID sobj) ""); [intros [= <- _ _]; reflexivity|].
  destruct (Current.json_Marshal env _); [intros [= <- _ _]; reflexivity|].
  unfold bind at 1. rewrite makeURL_endpoint. step_request.
  - intros [= <- _ _]; reflexivity.
  - unfold Current.deref, panic, ret.
    destruct res; [intros [= <- _ _]; reflexivity|discriminate].
Qed.

(** The URL [DownloadFile] requests. *)
Lemma DownloadFile_url_endpoint h id :
  Current.baseURL h ++ "/services/data/" ++ Current.apiVersion h
    ++ "/sobjects/ContentVersion/" ++ id ++ "/VersionData"
  = Current.endpoint h ("sobjects/ContentVersion/" ++ id ++ "/VersionData").
Proof. reflexivity. Qed.

(** C10: when the request of [DownloadFile] returns an error, for a
    transport failure as for a status outside 200-299, [DownloadFile]
    returns that error and the files are exactly as before; and whenever
    [DownloadFile] returns with the files changed, its request had
    returned a response and no error, and [os.Create] had succeeded
    after it. *)
Theorem DownloadFile_creates_after_request id filepath w :
  let url := Current.endpoint (client w)
               ("sobjects/ContentVersion/" ++ id ++ "/VersionData") in
  (forall res e w1,
     Current.request env MethodGet url None (Some Current.jsonHeaders) w
       = Ret ((res, Some e), w1) ->
     Current.DownloadFile env id filepath w = Ret (Some e, w1)
     /\ files w1 = files w)
  /\ (forall err w',
        Current.DownloadFile env id filepath w = Ret (err, w') ->
        files w' <> files w ->
        exists res w1,
          Current.request env MethodGet url None (Some Current.jsonHeaders) w
            = Ret ((Some res, None), w1)
          /\ files w1 = files w
          /\ Current.os_Create_error env (files w1) filepath = None)
  /\ Current.DownloadFile env id filepath w <> Panic.
Proof.
  intros url. unfold Current.DownloadFile. fold (Current.endpoint (client w)).
  change (Current.baseURL (client w) ++ "/services/data/"
            ++ Current.apiVersion (client w) ++ "/sobjects/ContentVersion/"
            ++ id ++ "/VersionData") with url.
  step_request.
  - (* the request returned an error *)
    split; [|split].
    + intros res' e' w1 [= -> -> ->]. split; [reflexivity|assumption].
    + intros err w' [= <- <-] Hfiles. congruence.
    + discriminate.
  - (* the request returned no error *)
    match goal with H : None = None -> _ |- _ => destruct (H eq_refl) as [r ->] end.
    unfold Current.deref, bind, os_Create, ret.
    split; [|split].
    + intros res' e' w1 [=].
    + intros err w'.
      destruct (Current.os_Create_error env (files _) filepath) eqn:Hcreate.
      * intros [= <- <-] Hfiles. congruence.
      * intros _ _. eexists _, _. repeat split; eauto.
    + destruct (Current.os_Create_error env (files _) filepath);
        [discriminate|].
      match goal with
      | |- io_Copy ?wr ?p ?b ?w0 <> _ =>
          destruct (io_Copy_returns wr p b w0) as (err & fs & ->)
      end.
      discriminate.
Qed.

(** *** What each operation sends, and that it leaves the client alone *)

(** Finishes a branch of an operation after its request. *)
Ltac close_branch :=
  unfold Current.deref, ret, panic, os_Create, io_Copy, bind;
  repeat match goal with
         | |- context [match ?x with _ => _ end] => destruct x
         end;
  try discriminate;
  intros [= <- <-];
  (split;
   [ first [ reflexivity
           | match goal with H : client _ = client _ |- _ => exact H end ]
   | first [ left; reflexivity
           | match goal with H : Current.sent_at_most _ _ _ _ |- _ => exact H end ] ]).

Ltac trace_operation :=
  repeat match goal with
         | |- (if ?c then _ else _) _ = _ -> _ => destruct c
         | |- match ?x with inl _ => _ | inr _ => _ end _ = _ -> _ => destruct x
         end;
  try close_branch;
  try (unfold bind at 1; rewrite makeURL_endpoint);
  step_request; close_branch.

Lemma Query_effect query token result w w' :
  Current.Query env query token w = Ret (result, w') ->
  Current.op_effect w w' MethodGet
    (if (0 <? String.length token)%nat
     then Current.baseURL (client w) ++ token
     else Current.endpoint (client w) ("query?q=" ++ url.PathEscape query)).
Proof.
  unfold Current.Query, Current.endpoint.
  destruct (0 <? String.length token)%nat; trace_operation.
Qed.

Lemma DescribeSObject_effect sobj result w w' :
  Current.DescribeSObject env sobj w = Ret (result, w') ->
  Current.op_effect w w' MethodGet
    (Current.endpoint (client w)
       ("sobjects/" ++ SObjectM.Type' sobj ++ "/describe")).
Proof. unfold Current.DescribeSObject. trace_operation. Qed.

Lemma CreateSObject_effect sobj blacklist result w w' :
  Current.CreateSObject env sobj blacklist w = Ret (result, w') ->
  Current.op_effect w w' MethodPost
    (Current.endpoint (client w) ("sobjects/" ++ SObjectM.Type' sobj ++ "/")).
Proof. unfold Current.CreateSObject. trace_operation. Qed.

Lemma GetSObject_effect sobj result w w' :
  Current.GetSObject env sobj w = Ret (result, w') ->
  Current.op_effect w w' MethodGet
    (Current.endpoint (client w)
       ("sobjects/" ++ SObjectM.Type' sobj ++ "/" ++ SObjectM.ID sobj)).
Proof. unfold Current.GetSObject. trace_operation. Qed.

Lemma UpdateSObject_effect sobj blacklist result w w' :
  Current.UpdateSObject env sobj blacklist w = Ret (result, w') ->
  Current.op_effect w w' MethodPatch
    (Current.endpoint (client w)
       ("sobjects/" ++ SObjectM.Type' sobj ++ "/" ++ SObjectM.ID sobj)).
Proof. unfold Current.UpdateSObject. trace_operation. Qed.

Lemma DeleteSObject_effect sobj result w w' :
  Current.DeleteSObject env sobj w = Ret (result, w') ->
  Current.op_effect w w' MethodDelete
    (Current.endpoint (client w)
       ("sobjects/" ++ SObjectM.Type' sobj ++ "/" ++ SObjectM.ID sobj)).
Proof. unfold Current.DeleteSObject. trace_operation. Qed.

Lemma DownloadFile_effect id filepath result w w' :
  Current.DownloadFile env id filepath w = Ret (result, w') ->
  Current.op_effect w w' MethodGet
    (Current.endpoint (client w)
       ("sobjects/ContentVersion/" ++ id ++ "/VersionData")).
Proof.
  unfold Current.DownloadFile, Current.endpoint.
  step_request; [close_branch|].
  destruct res as [r|]; [|discriminate].
  unfold Current.deref, bind, os_Create, ret.
  destruct (Current.os_Create_error env (files wreq) filepath).
  - intros [= <- <-]. split; [assumption|].
    match goal with H : Current.sent_at_most _ _ _ _ |- _ => exact H end.
  - match goal with
    | |- io_Copy ?wr ?p ?b ?w0 = _ -> _ =>
        destruct (io_Copy_returns wr p b w0) as (err & fs & ->)
    end.
    intros [= <- <-]. split; [assumption|].
    match goal with H : Current.sent_at_most _ _ _ _ |- _ => exact H end.
Qed.

Lemma DescribeGlobal_effect result w w' :
  Current.DescribeGlobal env w = Ret (result, w') ->
  Current.op_effect w w' MethodGet (Current.endpoint (client w) "sobjects").
Proof. unfold Current.DescribeGlobal, Current.endpoint. trace_operation. Qed.

(** X22: no operation of the current client assigns to a field of the
    client struct. *)
Lemma Current_operations_keep_client w w' :
  (forall q t r, Current.Query env q t w = Ret (r, w') -> client w' = client w)
  /\ (forall o r, Current.DescribeSObject env o w = Ret (r, w') -> client w' = client w)
  /\ (forall o b r, Current.CreateSObject env o b w = Ret (r, w') -> client w' = client w)
  /\ (forall o r, Current.GetSObject env o w = Ret (r, w') -> client w' = client w)
  /\ (forall o b r, Current.UpdateSObject env o b w = Ret (r, w') -> client w' = client w)
  /\ (forall o r, Current.DeleteSObject env o w = Ret (r, w') -> client w' = client w)
  /\ (forall i f r, Current.DownloadFile env i f w = Ret (r, w') -> client w' = client w)
  /\ (forall r, Current.DescribeGlobal env w = Ret (r, w') -> client w' = client w)
  /\ (forall u r, Current.makeURL u w = Ret (r, w') -> client w' = client w).
Proof.
  repeat apply conj; intros.
  - eapply Query_effect; eassumption.
  - eapply DescribeSObject_effect; eassumption.
  - eapply CreateSObject_effect; eassumption.
  - eapply GetSObject_effect; eassumption.
  - eapply UpdateSObject_effect; eassumption.
  - eapply DeleteSObject_effect; eassumption.
  - eapply DownloadFile_effect; eassumption.
  - eapply DescribeGlobal_effect; eassumption.
  - rewrite makeURL_endpoint in H. congruence.
Qed.

(** C4: the constructor stores the base URL with one trailing [/]
    removed when there is one, and the API version as supplied; from
    then on [makeURL] and every operation that addresses a versioned
    resource use [{base}/services/data/{api-version}/{resource-path}]
    with the stored base and the version verbatim. *)
Theorem endpoint_rule (t : Transport) (base ver : string) :
  let h := Current.NewHTTPClient t base ver in
  (base = Current.baseURL h ++ "/"
   \/ (strings.HasSuffix base "/" = false /\ Current.baseURL h = base))
  /\ Current.apiVersion h = ver
  /\ (forall w, client w = h ->
      let rule resource :=
        Current.baseURL h ++ "/services/data/" ++ ver ++ "/" ++ resource in
      (forall resource, Current.makeURL resource w = Ret (rule resource, w))
      /\ (forall q r w', Current.Query env q "" w = Ret (r, w') ->
            Current.sent_at_most w w' MethodGet
              (rule ("query?q=" ++ url.PathEscape q)))
      /\ (forall o r w', Current.DescribeSObject env o w = Ret (r, w') ->
            Current.sent_at_most w w' MethodGet
              (rule ("sobjects/" ++ SObjectM.Type' o ++ "/describe")))
      /\ (forall o b r w', Current.CreateSObject env o b w = Ret (r, w') ->
            Current.sent_at_most w w' MethodPost
              (rule ("sobjects/" ++ SObjectM.Type' o ++ "/")))
      /\ (forall o r w', Current.GetSObject env o w = Ret (r, w') ->
            Current.sent_at_most w w' MethodGet
              (rule ("sobjects/" ++ SObjectM.Type' o ++ "/" ++ SObjectM.ID o)))
      /\ (forall o b r w', Current.UpdateSObject env o b w = Ret (r, w') ->
            Current.sent_at_most w w' MethodPatch
              (rule ("sobjects/" ++ SObjectM.Type' o ++ "/" ++ SObjectM.ID o)))
      /\ (forall o r w', Current.DeleteSObject env o w = Ret (r, w') ->
            Current.sent_at_most w w' MethodDelete
              (rule ("sobjects/" ++ SObjectM.Type' o ++ "/" ++ SObjectM.ID o)))
      /\ (forall i f r w', Current.DownloadFile env i f w = Ret (r, w') ->
            Current.sent_at_most w w' MethodGet
              (rule ("sobjects/ContentVersion/" ++ i ++ "/VersionData")))
      /\ (forall r w', Current.DescribeGlobal env w = Ret (r, w') ->
            Current.sent_at_most w w' MethodGet (rule "sobjects"))).
Proof.
  intros h. split; [|split; [reflexivity|]].
  - subst h. unfold Current.NewHTTPClient. cbn [Current.baseURL].
    destruct (strings.HasSuffix base "/") eqn:Hs.
    + left. apply HasSuffix_slash_inv, Hs.
    + right. split; [reflexivity|apply TrimSuffix_absent, Hs].
  - intros w Hw rule.
    assert (Hrule : forall resource,
               rule resource = Current.endpoint (client w) resource).
    { intros resource. rewrite Hw. reflexivity. }
    repeat apply conj; intros; rewrite Hrule.
    + apply makeURL_endpoint.
    + eapply (Query_effect _ ""); eassumption.
    + eapply DescribeSObject_effect; eassumption.
    + eapply CreateSObject_effect; eassumption.
    + eapply GetSObject_effect; eassumption.
    + eapply UpdateSObject_effect; eassumption.
    + eapply DeleteSObject_effect; eassumption.
    + eapply DownloadFile_effect; eassumption.
    + eapply DescribeGlobal_effect; eassumption.
Qed.

End Operations.

(** ** The earlier client: [makeURL] assigns to the client *)

(** [makeURL] stores the API version with every [v] removed. *)
Lemma Legacy_makeURL_apiVersion req w url w' :
  Legacy.makeURL req w = Ret (url, w') ->
  Legacy.apiVersion (client w')
  = strings.ReplaceByte (Legacy.apiVersion (client w)) "v" ""
  /\ Legacy.baseURL (client w') = Legacy.baseURL (client w).
Proof. unfold Legacy.makeURL. intros [= _ <-]. split; reflexivity. Qed.

(** C5, at the failing input: a client built by the earlier
    [NewHTTPClient] with the API version [v43.0] reads [v43.0] before a
    call of [makeURL] and [43.0] after it; the URL that [DownloadFile]
    requests differs accordingly before and after that call. *)
Theorem Legacy_makeURL_mutates_client :
  let t := Sample.always (mkResponse 200 (NewBuffer "")) in
  let h := Legacy.NewHTTPClient t "https://example.my.salesforce.com" "v43.0" in
  let w := mkWorld h [] ∅ in
  exists url w',
    Legacy.makeURL "sobjects" w = Ret (url, w')
    /\ Legacy.apiVersion (client w) = "v43.0"
    /\ Legacy.apiVersion (client w') = "43.0"
    /\ client w' <> client w
    /\ Legacy.DownloadFile_url (client w) "068x"
       = "https://example.my.salesforce.com/services/data/vv43.0/sobjects/ContentVersion/068x/VersionData"
    /\ Legacy.DownloadFile_url (client w') "068x"
       = "https://example.my.salesforce.com/services/data/v43.0/sobjects/ContentVersion/068x/VersionData".
Proof.
  cbv zeta. eexists _, _. split; [reflexivity|].
  repeat split; try reflexivity.
  intros H. apply (f_equal Legacy.apiVersion) in H. discriminate H.
Qed.

(** The earlier [DownloadFile] does not look at the status: the body of
    a 404 response is written to the destination. *)
Example Legacy_DownloadFile_ignores_status :
  let t := Sample.always (mkResponse 404 (NewBuffer "[]")) in
  let h := Legacy.NewHTTPClient t "https://example.my.salesforce.com" "43.0" in
  exists w',
    Legacy.DownloadFile (fun _ => None) (fun _ _ => None) (fun _ _ => None)
      "068x" "/tmp/out.bin" (mkWorld h [] ∅) = Ret (None, w')
    /\ files w' !! "/tmp/out.bin" = Some "[]".
Proof. cbv zeta. eexists. split; [vm_compute; reflexivity|reflexivity]. Qed.

(** ** The redacted copy *)

(** C8: the redacted copy has exactly the keys of the record that are
    not excluded, each with the record's value; the comparison of names
    is exact, so a name differing in case is kept.  [makeCopy] only
    reads its receiver: it yields the copy and nothing else. *)
Theorem makeCopy_redacts (obj : SObject) (excluded : list string) :
  dom (SObjectM.makeCopy obj excluded)
  = dom (sobjFields obj) ∖ list_to_set excluded
  /\ (forall k v, SObjectM.makeCopy obj excluded !! k = Some v <->
                  sobjFields obj !! k = Some v /\ k ∉ excluded)
  /\ (forall k, k ∈ excluded -> SObjectM.makeCopy obj excluded !! k = None).
Proof.
  assert (Hlookup : forall k v,
    SObjectM.makeCopy obj excluded !! k = Some v <->
    sobjFields obj !! k = Some v /\ k ∉ excluded).
  { intros k v. unfold SObjectM.makeCopy.
    rewrite map_lookup_filter_Some. reflexivity. }
  split; [|split; [exact Hlookup|]].
  - apply set_eq. intros k.
    rewrite elem_of_difference, !elem_of_dom, elem_of_list_to_set.
    split.
    + intros [v Hv]. apply Hlookup in Hv as [Hv Hk]. eauto.
    + intros [[v Hv] Hk]. exists v. apply Hlookup. auto.
  - intros k Hk. apply eq_None_not_Some. intros [v Hv].
    apply Hlookup in Hv as [_ Hnot]. contradiction.
Qed.

(** The exclusion is case-sensitive: excluding [Id] removes [Id] and
    keeps [id]. *)
Example makeCopy_case_sensitive :
  let obj := SObjectM.Set' (SObjectM.Set' Sample.case "Id" VNull)
                           "id" (VBool true) in
  SObjectM.makeCopy obj ["Id"] !! "Id" = None
  /\ SObjectM.makeCopy obj ["Id"] !! "id" = Some (VBool true)
  /\ SObjectM.makeCopy obj ["Id"] !! "Foo" = Some (VString "bar").
Proof. vm_compute. repeat split. Qed.

(** ** Escaping a query and reading it back *)

Lemma ContainsByte_app a b c :
  strings.ContainsByte (a ++ b) c
  = strings.ContainsByte a c || strings.ContainsByte b c.
Proof.
  induction a as [|x a IH]; [reflexivity|].
  change (String x a ++ b) with (String x (a ++ b)).
  cbn [strings.ContainsByte]. rewrite IH, orb_assoc. reflexivity.
Qed.

Lemma Cut_absent s c :
  strings.ContainsByte s c = false -> strings.Cut s c = (s, "", false).
Proof.
  induction s as [|x s IH]; [reflexivity|].
  cbn [strings.ContainsByte strings.Cut].
  destruct (Ascii.eqb x c); [discriminate|].
  intros H. rewrite (IH H). reflexivity.
Qed.

Lemma Cut_first a b c :
  strings.ContainsByte a c = false ->
  strings.Cut (a ++ String c b) c = (a, b, true).
Proof.
  induction a as [|x a IH].
  - intros _. change ("" ++ String c b) with (String c b).
    cbn [strings.Cut]. rewrite Ascii.eqb_refl. reflexivity.
  - change (String x a ++ String c b) with (String x (a ++ String c b)).
    cbn [strings.ContainsByte strings.Cut].
    destruct (Ascii.eqb x c); [discriminate|].
    intros H. rewrite (IH H). reflexivity.
Qed.

Lemma Split_absent s c :
  strings.ContainsByte s c = false -> strings.Split s c = [s].
Proof.
  induction s as [|x s IH]; [reflexivity|].
  cbn [strings.ContainsByte strings.Split].
  destruct (Ascii.eqb x c); [discriminate|].
  intros H. rewrite (IH H). reflexivity.
Qed.

(** The two hex digits written for a byte read back as that byte. *)
Lemma hex_digits_roundtrip c :
  url.ishex (url.hex_hi c) = true
  /\ url.ishex (url.hex_lo c) = true
  /\ url.unhex2 (url.hex_hi c) (url.hex_lo c) = c.
Proof.
  destruct c as [[] [] [] [] [] [] [] []]; vm_compute; repeat split.
Qed.

(** The bytes that [PathEscape] leaves in place are neither [%] nor one
    of the separators [# ? ;]. *)
Lemma kept_byte_is_plain c :
  url.shouldEscape_pathSegment c = false ->
  Ascii.eqb c "%" = false /\ Ascii.eqb c "#" = false
  /\ Ascii.eqb c "?" = false /\ Ascii.eqb c ";" = false.
Proof.
  destruct c as [[] [] [] [] [] [] [] []]; vm_compute;
    intros H; repeat split; discriminate H.
Qed.

(** A hex digit is none of the bytes that structure a URL or a query. *)
Lemma hex_digit_is_plain c :
  forall d, d = url.hex_hi c \/ d = url.hex_lo c ->
  url.one_of "#?;&+%=" d = false.
Proof.
  intros d [-> | ->];
    destruct c as [[] [] [] [] [] [] [] []]; vm_compute; reflexivity.
Qed.

(** [QueryUnescape] undoes [PathEscape] on a text without [+]. *)
Lemma QueryUnescape_PathEscape s :
  strings.ContainsByte s "+" = false ->
  url.QueryUnescape (url.PathEscape s) = Some s.
Proof.
  induction s as [|c s IH]; [reflexivity|].
  cbn [strings.ContainsByte url.PathEscape].
  intros H. apply orb_false_iff in H as [Hc Hs]. specialize (IH Hs).
  destruct (url.shouldEscape_pathSegment c) eqn:Hesc.
  - destruct (hex_digits_roundtrip c) as (Hhi & Hlo & Hbyte).
    cbn [url.QueryUnescape]. rewrite Ascii.eqb_refl, Hhi, Hlo, IH, Hbyte.
    reflexivity.
  - destruct (kept_byte_is_plain c Hesc) as (Hpct & _).
    cbn [url.QueryUnescape]. rewrite Hpct, Hc, IH. reflexivity.
Qed.

(** The bytes that [QueryEscape] leaves in place are neither [%] nor
    [+]. *)
Lemma kept_query_byte_is_plain c :
  url.shouldEscape_queryComponent c = false ->
  Ascii.eqb c "%" = false /\ Ascii.eqb c "+" = false.
Proof.
  destruct c as [[] [] [] [] [] [] [] []]; vm_compute;
    intros H; repeat split; discriminate H.
Qed.

(** [QueryUnescape] undoes [QueryEscape] on every text. *)
Lemma QueryUnescape_QueryEscape s :
  url.QueryUnescape (url.QueryEscape s) = Some s.
Proof.
  induction s as [|c s IH]; [reflexivity|].
  cbn [url.QueryEscape].
  destruct (url.shouldEscape_queryComponent c) eqn:Hesc.
  - destruct (Ascii.eqb_spec c " ") as [->|Hsp].
    + cbn [url.QueryUnescape].
      change (Ascii.eqb "+" "%") with false.
      change (Ascii.eqb "+" "+") with true.
      cbv iota. rewrite IH. reflexivity.
    + destruct (hex_digits_roundtrip c) as (Hhi & Hlo & Hbyte).
      cbn [url.QueryUnescape]. rewrite Ascii.eqb_refl, Hhi, Hlo, IH, Hbyte.
      reflexivity.
  - destruct (kept_query_byte_is_plain c Hesc) as (Hpct & Hplus).
    cbn [url.QueryUnescape]. rewrite Hpct, Hplus, IH. reflexivity.
Qed.

Lemma separator_not_hex_digit c d :
  url.one_of "#?;&" c = true ->
  url.one_of "#?;&+%=" d = false ->
  Ascii.eqb d c = false /\ Ascii.eqb "%" c = false.
Proof.
  intros Hc Hd. split.
  - destruct (Ascii.eqb_spec d c) as [->|]; [|reflexivity].
    unfold url.one_of in *. cbn [strings.ContainsByte] in Hc, Hd.
    rewrite ?orb_false_r in Hc, Hd.
    repeat match type of Hd with
           | _ || _ = false => apply orb_false_iff in Hd as [? Hd]
           end.
    repeat match type of Hc with
           | _ || _ = true => apply orb_true_iff in Hc as [Hc|Hc]
           end; congruence.
  - unfold url.one_of in Hc. cbn [strings.ContainsByte] in Hc.
    rewrite ?orb_false_r in Hc.
    repeat match type of Hc with
           | _ || _ = true => apply orb_true_iff in Hc as [Hc|Hc]
           end;
      apply Ascii.eqb_eq in Hc; subst c; reflexivity.
Qed.

(** A separator occurs in an escaped text only if [PathEscape] keeps it
    and it occurs in the text. *)
Lemma PathEscape_lacks q c :
  url.one_of "#?;&" c = true ->
  strings.ContainsByte q c = false \/ url.shouldEscape_pathSegment c = true ->
  strings.ContainsByte (url.PathEscape q) c = false.
Proof.
  intros Hc Hq. induction q as [|x q IH]; [reflexivity|].
  assert (Hrest : strings.ContainsByte (url.PathEscape q) c = false).
  { apply IH. destruct Hq as [Hq|Hq]; [left|right; exact Hq].
    cbn [strings.ContainsByte] in Hq. apply orb_false_iff in Hq. apply Hq. }
  cbn [url.PathEscape].
  destruct (url.shouldEscape_pathSegment x) eqn:Hx.
  - cbn [strings.ContainsByte].
    destruct (separator_not_hex_digit c (url.hex_hi x) Hc
                (hex_digit_is_plain x _ (or_introl eq_refl))) as [-> ->].
    destruct (separator_not_hex_digit c (url.hex_lo x) Hc
                (hex_digit_is_plain x _ (or_intror eq_refl))) as [-> _].
    exact Hrest.
  - cbn [strings.ContainsByte]. rewrite Hrest, orb_false_r.
    destruct Hq as [Hq|Hq].
    + cbn [strings.ContainsByte] in Hq. apply orb_false_iff in Hq. apply Hq.
    + destruct (Ascii.eqb_spec x c) as [->|]; [congruence|reflexivity].
Qed.

Lemma append_assoc (a b c : string) : (a ++ b) ++ c = a ++ (b ++ c).
Proof.
  induction a as [|x a IH]; [reflexivity|].
  change (String x ((a ++ b) ++ c) = String x (a ++ b ++ c)).
  rewrite IH. reflexivity.
Qed.

(** The query that [url.Parse] finds in the URL of a SOQL query. *)
Lemma RawQuery_of_query_url base ver q :
  strings.ContainsByte base "#" = false ->
  strings.ContainsByte base "?" = false ->
  strings.ContainsByte ver "#" = false ->
  strings.ContainsByte ver "?" = false ->
  url.RawQuery (base ++ "/services/data/" ++ ver ++ "/query?q="
                  ++ url.PathEscape q)
  = "q=" ++ url.PathEscape q.
Proof.
  intros Hb1 Hb2 Hv1 Hv2. unfold url.RawQuery.
  rewrite Cut_absent.
  2:{ rewrite !ContainsByte_app, Hb1, Hv1.
      rewrite (PathEscape_lacks q "#"); auto. }
  replace (base ++ "/services/data/" ++ ver ++ "/query?q=" ++ url.PathEscape q)
    with ((base ++ "/services/data/" ++ ver ++ "/query")
            ++ String "?" ("q=" ++ url.PathEscape q)).
  2:{ rewrite !append_assoc. reflexivity. }
  rewrite Cut_first; [reflexivity|].
  rewrite !ContainsByte_app, Hb2, Hv2. reflexivity.
Qed.

(** The [q] parameter of the URL of a SOQL query without [+] and [&]
    is the query. *)
Lemma query_parameter_roundtrip base ver q :
  strings.ContainsByte base "#" = false ->
  strings.ContainsByte base "?" = false ->
  strings.ContainsByte ver "#" = false ->
  strings.ContainsByte ver "?" = false ->
  strings.ContainsByte q "+" = false ->
  strings.ContainsByte q "&" = false ->
  url.Query (base ++ "/services/data/" ++ ver ++ "/query?q="
               ++ url.PathEscape q)
  = [("q", q)].
Proof.
  intros Hb1 Hb2 Hv1 Hv2 Hplus Hamp. unfold url.Query.
  rewrite RawQuery_of_query_url by assumption.
  unfold url.ParseQuery.
  rewrite Split_absent.
  2:{ rewrite ContainsByte_app, (PathEscape_lacks q "&"); auto. }
  cbn [omap list_omap]. unfold url.parsePiece.
  rewrite ContainsByte_app, (PathEscape_lacks q ";") by auto.
  change ("q=" ++ url.PathEscape q)
    with (String "q" (String "=" (url.PathEscape q))).
  cbn [strings.ContainsByte orb String.eqb strings.Cut].
  change (Ascii.eqb "q" "=") with false.
  change (Ascii.eqb "=" "=") with true.
  cbv iota beta.
  rewrite QueryUnescape_PathEscape by assumption.
  reflexivity.
Qed.

Lemma Cut_before_lacks s d c :
  strings.ContainsByte s c = false ->
  strings.ContainsByte (strings.Cut s d).1.1 c = false.
Proof.
  induction s as [|x s IH]; [reflexivity|].
  cbn [strings.ContainsByte strings.Cut]. intros H.
  apply orb_false_iff in H as [Hx Hs]. specialize (IH Hs).
  destruct (Ascii.eqb x d); [reflexivity|].
  destruct (strings.Cut s d) as [[before after] found].
  cbn [fst strings.ContainsByte] in *. rewrite Hx, IH. reflexivity.
Qed.

(** A URL without [?] has no query parameter. *)
Lemma no_question_mark_no_parameter u key :
  strings.ContainsByte u "?" = false -> url.Has (url.Query u) key = false.
Proof.
  intros H. unfold url.Query, url.RawQuery.
  pose proof (Cut_before_lacks u "#" "?" H) as Hrest.
  destruct (strings.Cut u "#") as [[rest frag] found]. cbn [fst] in Hrest.
  rewrite (Cut_absent rest "?" Hrest). reflexivity.
Qed.

Section QueryRequests.

Variable env : Current.Collaborators.

(** [Query] always returns, and when the URL parses, the world it
    leaves is the one in which its one request has been sent. *)
Lemma Query_sends query token w :
  let path := if (0 <? String.length token)%nat then token
              else "/services/data/" ++ Current.apiVersion (client w)
                     ++ "/query?q=" ++ url.PathEscape query in
  let u := Current.baseURL (client w) ++ path in
  Current.url_Parse_error env u = None ->
  exists result,
    Current.Query env query token w =
      Ret (result,
           Current.after_send w
             (mkRequest MethodGet u None
                {[ "Content-Type" := ["application/json"] ]})).
Proof.
  intros path u Hurl. unfold Current.Query. fold path. fold u.
  unfold bind. rewrite request_outcome, Hurl. cbv zeta.
  change (Current.requestHeader None)
    with ({[ "Content-Type" := ["application/json"] ]} : Header).
  destruct (Current.httpClient _ _ _) as [e|res]; [eexists; reflexivity|].
  destruct (Current.failedStatus _).
  - destruct (io_ReadAll _) as [[?|?] ?]; eexists; reflexivity.
  - unfold Current.deref.
    destruct (Current.Decode_QueryResult env _); eexists; reflexivity.
Qed.

(** With a continuation token, [Query] sends one GET whose URL is the
    stored base URL followed by the token, whatever the query string is;
    such a URL has no [q] parameter when it holds no [?]. *)
Lemma Query_with_token query token w :
  token <> "" ->
  let u := Current.baseURL (client w) ++ token in
  Current.url_Parse_error env u = None ->
  (exists result,
     Current.Query env query token w =
       Ret (result,
            Current.after_send w
              (mkRequest MethodGet u None
                 {[ "Content-Type" := ["application/json"] ]})))
  /\ (strings.ContainsByte u "?" = false -> url.Has (url.Query u) "q" = false).
Proof.
  intros Htoken u Hurl. split.
  - pose proof (Query_sends query token w) as Hsend.
    destruct token as [|c token]; [congruence|].
    exact (Hsend Hurl).
  - apply no_question_mark_no_parameter.
Qed.

End QueryRequests.

(** ** The claims at concrete inputs *)

(** C3, at the failing input: with an empty token, the query
    [SELECT Id FROM Account WHERE Name = 'A+B'] is sent with its [+] left
    as it is, because [Query] escapes it with [url.PathEscape]; the [q]
    parameter of the URL requested then decodes to a text with a space
    in place of the [+], which is not the query.  Escaped with
    [url.QueryEscape], the same query decodes to itself. *)
Theorem Query_plus_sign_not_round_tripped :
  let q := "SELECT Id FROM Account WHERE Name = 'A+B'" in
  let w := Sample.world (Sample.always (mkResponse 200 (NewBuffer "{}"))) in
  exists result w' u,
    Current.Query Sample.env q "" w = Ret (result, w')
    /\ Method <$> sent w' = [MethodGet]
    /\ URL <$> sent w' = [u]
    /\ u = "https://example.my.salesforce.com/services/data/v43.0/query?q=SELECT%20Id%20FROM%20Account%20WHERE%20Name%20=%20%27A+B%27"
    /\ url.Get (url.Query u) "q" = "SELECT Id FROM Account WHERE Name = 'A B'"
    /\ url.Get (url.Query u) "q" <> q
    /\ url.QueryUnescape (url.QueryEscape q) = Some q.
Proof.
  cbv zeta. eexists _, _, _. split; [reflexivity|].
  split; [reflexivity|]. split; [reflexivity|]. split; [reflexivity|].
  split; [reflexivity|]. split; [vm_compute; discriminate|].
  apply QueryUnescape_QueryEscape.
Qed.

(** C6, counterexample: a response with status 500 whose body fails
    while it is read makes [request] return no response, and the read
    error in place of an error parsed from the body. *)
Lemma request_unreadable_body_counterexample :
  let body := mkBody "[{" (Some (ExternalError "unexpected EOF")) in
  let w := Sample.world (Sample.always (mkResponse 500 body)) in
  exists w',
    Current.request Sample.env MethodGet "https://example.my.salesforce.com/x"
      None None w
    = Ret ((None, Some (ExternalError "unexpected EOF")), w').
Proof. cbv zeta. eexists. rewrite request_outcome. reflexivity. Qed.

(** C6 (amended), at a concrete input: a readable 404. *)
Lemma request_status_handling_witness :
  let res := mkResponse 404 (NewBuffer "[]") in
  let w := Sample.world (Sample.always res) in
  let u := "https://example.my.salesforce.com/x" in
  exists returned,
    Current.request Sample.env MethodGet u None None w =
      Ret ((Some returned, Some ErrFailure),
           Current.after_send w
             (mkRequest MethodGet u None (Current.requestHeader None)))
    /\ StatusCode returned = 404%Z
    /\ (io_ReadAll (RespBody returned)).1 = inr "[]"
    /\ (io_ReadAll (io_ReadAll (RespBody res)).2).1 = inr "".
Proof.
  cbv zeta.
  destruct (request_status_handling Sample.env MethodGet
              "https://example.my.salesforce.com/x" None None
              (Sample.world (Sample.always (mkResponse 404 (NewBuffer "[]"))))
              (mkResponse 404 (NewBuffer "[]")) eq_refl eq_refl)
    as [Hfail _].
  destruct (Hfail ltac:(right; cbn; lia)) as [Hread _].
  exact (Hread eq_refl).
Defined.

(** C7, counterexample: a caller passing only an [Accept] header finds
    the default [Content-Type] added to its headers on the request, which
    therefore does not carry the caller's headers alone. *)
Lemma request_adds_default_counterexample :
  let hs : Header := {[ "Accept" := ["application/json"] ]} in
  let w := Sample.world (Sample.always (mkResponse 200 (NewBuffer "{}"))) in
  exists result w' hdr,
    Current.request Sample.env MethodGet "https://example.my.salesforce.com/x"
      None (Some hs) w = Ret (result, w')
    /\ ReqHeader <$> sent w' = [hdr]
    /\ hdr !! "Content-Type" = Some ["application/json"]
    /\ hs !! "Content-Type" = None
    /\ hdr <> hs.
Proof.
  cbv zeta. eexists _, _, _. split; [rewrite request_outcome; reflexivity|].
  split; [reflexivity|]. split; [reflexivity|]. split; [reflexivity|].
  intros H. apply (f_equal (fun m : Header => m !! "Content-Type")) in H.
  vm_compute in H. discriminate H.
Qed.

(** C7 (amended), at a concrete input: the caller's own [Content-Type]
    is kept. *)
Lemma request_header_rule_witness :
  let hs : Header := {[ "Content-Type" := ["text/csv"] ]} in
  let w := Sample.world (Sample.always (mkResponse 200 (NewBuffer "{}"))) in
  let u := "https://example.my.salesforce.com/x" in
  exists result,
    Current.request Sample.env MethodGet u None (Some hs) w =
      Ret (result, Current.after_send w (mkRequest MethodGet u None hs)).
Proof.
  cbv zeta.
  destruct (request_header_rule Sample.env MethodGet
              "https://example.my.salesforce.com/x" None
              (Some ({[ "Content-Type" := ["text/csv"] ]} : Header))
              (Sample.world (Sample.always (mkResponse 200 (NewBuffer "{}"))))
              eq_refl)
    as (result & hdr & Hrun & _ & Hkeep & _).
  exists result.
  rewrite (Hkeep _ eq_refl ltac:(vm_compute; discriminate)) in Hrun.
  exact Hrun.
Defined.

(** C1, at a concrete input: the server reports success with the id
    [object1]. *)
Lemma CreateSObject_assigns_id_witness :
  let res := mkResponse 201 (NewBuffer "object1") in
  let w := Sample.world (Sample.always res) in
  exists w',
    Current.CreateSObject Sample.env Sample.case [] w =
      Ret ((SObjectM.SetID Sample.case "object1", None), w')
    /\ SObjectM.ID (SObjectM.SetID Sample.case "object1") = "object1".
Proof.
  cbv zeta.
  destruct (CreateSObject_assigns_id_on_success Sample.env Sample.case []
              (Sample.world (Sample.always (mkResponse 201 (NewBuffer "object1"))))
              "{}" (mkResponse 201 (NewBuffer "object1"))
              (Current.mkCreateResponse "object1" true)
              ltac:(vm_compute; discriminate) eq_refl eq_refl eq_refl
              ltac:(cbn; lia) eq_refl)
    as (Hok & _ & _).
  eexists. apply Hok. split; [reflexivity|cbn; discriminate].
Defined.

(** C1, at a concrete input: the server reports a failure. *)
Example CreateSObject_reported_failure :
  let w := Sample.world (Sample.always (mkResponse 200 (NewBuffer "failure"))) in
  exists w',
    Current.CreateSObject Sample.env Sample.case1 [] w =
      Ret ((Sample.case1, Some ErrFailure), w')
    /\ SObjectM.ID Sample.case1 = "object1".
Proof.
  cbv zeta. eexists. split; [|reflexivity].
  vm_compute. reflexivity.
Qed.

(** C2, at concrete inputs: a record without type, and a record with a
    type but without id. *)
Lemma validation_precedes_io_witness :
  let w := Sample.world (Sample.always (mkResponse 200 (NewBuffer "{}"))) in
  Current.CreateSObject Sample.env (mkSObject "" ∅) [] w
    = Ret ((mkSObject "" ∅, Some ErrFailure), w)
  /\ Current.DeleteSObject Sample.env Sample.case w
     = Ret ((Sample.case, Some ErrFailure), w).
Proof.
  cbv zeta. split.
  - apply (validation_precedes_io Sample.env (mkSObject "" ∅) []). reflexivity.
  - apply (validation_precedes_io Sample.env Sample.case []). reflexivity.
Defined.

(** C4, at a concrete input. *)
Lemma endpoint_rule_witness :
  let h := Current.NewHTTPClient (Sample.always (mkResponse 200 (NewBuffer "{}")))
             "https://example.my.salesforce.com/" "v43.0" in
  Current.baseURL h = "https://example.my.salesforce.com"
  /\ Current.makeURL "sobjects/Case/describe" (mkWorld h [] ∅)
     = Ret ("https://example.my.salesforce.com/services/data/v43.0/sobjects/Case/describe",
            mkWorld h [] ∅).
Proof.
  cbv zeta. split; [reflexivity|].
  apply (endpoint_rule Sample.env
           (Sample.always (mkResponse 200 (NewBuffer "{}")))
           "https://example.my.salesforce.com/" "v43.0").
  reflexivity.
Defined.

(** C8, at a concrete input: excluding [Id] from a created record. *)
Lemma makeCopy_redacts_witness :
  SObjectM.makeCopy Sample.case1 ["Id"] !! "Id" = None
  /\ dom (SObjectM.makeCopy Sample.case1 ["Id"])
     = dom (sobjFields Sample.case1) ∖ list_to_set ["Id"].
Proof.
  destruct (makeCopy_redacts Sample.case1 ["Id"]) as (Hdom & _ & Hex).
  split; [apply Hex; apply list_elem_of_here|exact Hdom].
Defined.

(** C9, at a concrete input: a successful update. *)
Lemma UpdateSObject_keeps_record_witness :
  let w := Sample.world (Sample.always (mkResponse 204 (NewBuffer ""))) in
  exists sobj' w',
    Current.UpdateSObject Sample.env Sample.case1 [] w = Ret ((sobj', None), w')
    /\ sobj' = Sample.case1.
Proof.
  cbv zeta.
  assert (Hrun : exists sobj' w',
    Current.UpdateSObject Sample.env Sample.case1 []
      (Sample.world (Sample.always (mkResponse 204 (NewBuffer ""))))
    = Ret ((sobj', None), w')).
  { eexists _, _. vm_compute. reflexivity. }
  destruct Hrun as (sobj' & w' & Hrun). exists sobj', w'.
  split; [exact Hrun|].
  exact (proj1 (UpdateSObject_keeps_record Sample.env Sample.case1 [] _ _ _ _ Hrun)).
Defined.

(** C10, at a concrete input: the server answers 404, and the download
    returns the parsed error without touching the files. *)
Lemma DownloadFile_creates_after_request_witness :
  let w := Sample.world (Sample.always (mkResponse 404 (NewBuffer "[]"))) in
  exists w',
    Current.DownloadFile Sample.env "068x" "/tmp/out.bin" w
      = Ret (Some ErrFailure, w')
    /\ files w' = files w.
Proof.
  cbv zeta.
  destruct (DownloadFile_creates_after_request Sample.env "068x" "/tmp/out.bin"
              (Sample.world (Sample.always (mkResponse 404 (NewBuffer "[]")))))
    as (Hfail & _ & _).
  eexists. apply (Hfail (Some (mkResponse 404 (NewBuffer "[]")))).
  rewrite request_outcome. reflexivity.
Defined.

(** * Further properties of the current client *)

Section CurrentBehaviour.

Variable env : Current.Collaborators.

(** [request] answered with a status in 200-299. *)
Lemma request_on_success method url body headers w res :
  Current.url_Parse_error env url = None ->
  Current.httpClient (client w) (sent w)
    (mkRequest method url body (Current.requestHeader headers)) = inr res ->
  (200 <= StatusCode res <= 299)%Z ->
  Current.request env method url body headers w =
    Ret ((Some res, None),
         Current.after_send w
           (mkRequest method url body (Current.requestHeader headers))).
Proof.
  intros Hurl Hdo Hcode. rewrite request_outcome, Hurl. cbv zeta. rewrite Hdo.
  apply failedStatus_false in Hcode. rewrite Hcode. reflexivity.
Qed.

(** [request] answered with a status outside 200-299. *)
Lemma request_on_failure method url body headers w res :
  Current.url_Parse_error env url = None ->
  Current.httpClient (client w) (sent w)
    (mkRequest method url body (Current.requestHeader headers)) = inr res ->
  (StatusCode res < 200 \/ 299 < StatusCode res)%Z ->
  Current.request env method url body headers w =
    Ret (match (io_ReadAll (RespBody res)).1 with
         | inl e => (None, Some e)
         | inr data =>
             (Some (mkResponse (StatusCode res) (NewBuffer data)),
              Some (Current.parseSalesforceError env (StatusCode res) data))
         end,
         Current.after_send w
           (mkRequest method url body (Current.requestHeader headers))).
Proof.
  intros Hurl Hdo Hcode. rewrite request_outcome, Hurl. cbv zeta. rewrite Hdo.
  apply failedStatus_true in Hcode. rewrite Hcode.
  destruct (io_ReadAll (RespBody res)) as [[?|?] ?]; reflexivity.
Qed.

(** X1: [request] never returns a nil response together with a nil
    error.  A nil error comes with the transport's own response, whose
    status is in 200-299; a response returned next to an error has a
    status outside 200-299 and a body that reads without error. *)
Theorem request_response_or_error method url body headers w :
  exists res err w',
    Current.request env method url body headers w = Ret ((res, err), w')
    /\ (err = None ->
        exists r, res = Some r /\ (200 <= StatusCode r <= 299)%Z
                  /\ Current.httpClient (client w) (sent w)
                       (mkRequest method url body
                          (Current.requestHeader headers)) = inr r)
    /\ (res = None -> err <> None)
    /\ (forall r e, res = Some r -> err = Some e ->
          (StatusCode r < 200 \/ 299 < StatusCode r)%Z
          /\ fault (RespBody r) = None).
Proof.
  rewrite request_outcome.
  destruct (Current.url_Parse_error env url) as [e|].
  { eexists _, _, _. split; [reflexivity|].
    split; [discriminate|]. split; [discriminate|]. discriminate. }
  cbv zeta. destruct (Current.httpClient _ _ _) as [e|res] eqn:Hdo.
  { eexists _, _, _. split; [reflexivity|].
    split; [discriminate|]. split; [discriminate|]. discriminate. }
  destruct (Current.failedStatus (StatusCode res)) eqn:Hcode.
  - apply failedStatus_true in Hcode.
    destruct (io_ReadAll (RespBody res)) as [[e|data] consumed];
      (eexists _, _, _; split; [reflexivity|]);
      (split; [discriminate|]); (split; [discriminate|]).
    + discriminate.
    + intros r e [= <-] _. split; [exact Hcode|reflexivity].
  - apply failedStatus_false in Hcode.
    eexists _, _, _. split; [reflexivity|].
    split; [intros _; eauto|]. split; discriminate.
Qed.

(** An operation that stops at [if err != nil] when its request is
    answered with a failing status. *)
Lemma request_failure_error method url body headers w res :
  Current.url_Parse_error env url = None ->
  Current.httpClient (client w) (sent w)
    (mkRequest method url body (Current.requestHeader headers)) = inr res ->
  (StatusCode res < 200 \/ 299 < StatusCode res)%Z ->
  exists r,
    Current.request env method url body headers w =
      Ret ((r, Some (Current.failure_error env res)),
           Current.after_send w
             (mkRequest method url body (Current.requestHeader headers))).
Proof.
  intros Hurl Hdo Hcode.
  rewrite (request_on_failure _ _ _ _ _ _ Hurl Hdo Hcode).
  unfold Current.failure_error.
  destruct (io_ReadAll (RespBody res)) as [[?|?] ?]; eexists; reflexivity.
Qed.



(** The header map of a request made without headers of the caller. *)
Lemma requestHeader_default :
  Current.requestHeader None = {[ "Content-Type" := ["application/json"] ]}.
Proof. reflexivity. Qed.

Lemma nonempty_eqb s : s <> "" -> String.eqb s "" = false.
Proof. apply String.eqb_neq. Qed.

Lemma nonempty_length s : s <> "" -> (String.length s =? 0)%nat = false.
Proof. rewrite eqb_empty_length. apply String.eqb_neq. Qed.

(** X3: when [json.Marshal] of the redacted copy fails, [CreateSObject]
    and [UpdateSObject] return that error before making a request: the
    world, and so the list of requests sent, is as before, and so is the
    record. *)
Theorem marshal_error_precedes_io sobj blacklist w e :
  SObjectM.Type' sobj <> "" ->
  Current.json_Marshal env (SObjectM.makeCopy sobj blacklist) = inl e ->
  Current.CreateSObject env sobj blacklist w = Ret ((sobj, Some e), w)
  /\ (SObjectM.ID sobj <> "" ->
      Current.UpdateSObject env sobj blacklist w = Ret ((sobj, Some e), w)).
Proof.
  intros Hty Hmarshal. split.
  - unfold Current.CreateSObject.
    rewrite (nonempty_eqb _ Hty), Hmarshal. reflexivity.
  - intros Hid. unfold Current.UpdateSObject.
    rewrite (nonempty_eqb _ Hty), (nonempty_eqb _ Hid), Hmarshal. reflexivity.
Qed.

(** X4: a create request answered with a 2xx response whose body decodes
    without error to a nil pointer (the JSON text [null]) makes
    [CreateSObject] panic: [resData.Success] dereferences the nil
    pointer. *)
Theorem CreateSObject_null_response_panics sobj blacklist w reqData res :
  SObjectM.Type' sobj <> "" ->
  Current.json_Marshal env (SObjectM.makeCopy sobj blacklist) = inr reqData ->
  let url := Current.endpoint (client w)
               ("sobjects/" ++ SObjectM.Type' sobj ++ "/") in
  let req := mkRequest MethodPost url (Some reqData)
               {[ "Content-Type" := ["application/json"] ]} in
  Current.url_Parse_error env url = None ->
  Current.httpClient (client w) (sent w) req = inr res ->
  (200 <= StatusCode res <= 299)%Z ->
  Current.Decode_createSObjectResponse env (RespBody res) = inr None ->
  Current.CreateSObject env sobj blacklist w = Panic.
Proof.
  intros Hty Hmarshal url req Hurl Hdo Hcode Hdecode.
  unfold Current.CreateSObject.
  rewrite (nonempty_eqb _ Hty), Hmarshal.
  unfold bind at 1. rewrite makeURL_endpoint. unfold bind.
  fold url.
  rewrite (request_on_success MethodPost url (Some reqData) None w res
             Hurl Hdo Hcode).
  unfold Current.deref. rewrite Hdecode. reflexivity.
Qed.

(** X5: a create request answered with a status outside 200-299 makes
    [CreateSObject] return the error of the request (the error parsed
    from the body, or the read error of the body) with the record as it
    was; the body is not decoded as a create response, so no id is
    assigned whatever the body says. *)
Theorem CreateSObject_failing_status sobj blacklist w reqData res :
  SObjectM.Type' sobj <> "" ->
  Current.json_Marshal env (SObjectM.makeCopy sobj blacklist) = inr reqData ->
  let url := Current.endpoint (client w)
               ("sobjects/" ++ SObjectM.Type' sobj ++ "/") in
  let req := mkRequest MethodPost url (Some reqData)
               {[ "Content-Type" := ["application/json"] ]} in
  Current.url_Parse_error env url = None ->
  Current.httpClient (client w) (sent w) req = inr res ->
  (StatusCode res < 200 \/ 299 < StatusCode res)%Z ->
  Current.CreateSObject env sobj blacklist w =
    Ret ((sobj, Some (Current.failure_error env res)), Current.after_send w req).
Proof.
  intros Hty Hmarshal url req Hurl Hdo Hcode.
  unfold Current.CreateSObject.
  rewrite (nonempty_eqb _ Hty), Hmarshal.
  unfold bind at 1. rewrite makeURL_endpoint. unfold bind. fold url.
  destruct (request_failure_error MethodPost url (Some reqData) None w res
              Hurl Hdo Hcode) as [r ->].
  reflexivity.
Qed.

(** X6: for a record with type and id, a get request answered with a
    2xx response makes [GetSObject] return the record and the error that
    decoding the body into the record yields, so that a decoding error
    comes with whatever the decoder left in the record; a status outside
    200-299 makes it return the error of the request with the record as
    it was. *)
Theorem GetSObject_outcome sobj w res :
  SObjectM.Type' sobj <> "" ->
  SObjectM.ID sobj <> "" ->
  let url := Current.endpoint (client w)
               ("sobjects/" ++ SObjectM.Type' sobj ++ "/" ++ SObjectM.ID sobj) in
  let req := mkRequest MethodGet url None
               {[ "Content-Type" := ["application/json"] ]} in
  Current.url_Parse_error env url = None ->
  Current.httpClient (client w) (sent w) req = inr res ->
  ((200 <= StatusCode res <= 299)%Z ->
     Current.GetSObject env sobj w =
       Ret (Current.Decode_SObject env (RespBody res) sobj,
            Current.after_send w req))
  /\ ((StatusCode res < 200 \/ 299 < StatusCode res)%Z ->
        Current.GetSObject env sobj w =
          Ret ((sobj, Some (Current.failure_error env res)),
               Current.after_send w req)).
Proof.
  intros Hty Hid url req Hurl Hdo.
  split; intros Hcode; unfold Current.GetSObject;
    rewrite (nonempty_length _ Hty), (nonempty_length _ Hid);
    unfold bind at 1; rewrite makeURL_endpoint; unfold bind; fold url.
  - rewrite (request_on_success MethodGet url None None w res Hurl Hdo Hcode).
    unfold Current.deref.
    destruct (Current.Decode_SObject env (RespBody res) sobj) as [sobj' [e|]];
      reflexivity.
  - destruct (request_failure_error MethodGet url None None w res
                Hurl Hdo Hcode) as [r ->].
    reflexivity.
Qed.

(** X7: for a record with type and id, [UpdateSObject] sends one PATCH
    to the record's endpoint whose body is the marshalled redacted copy;
    a 2xx answer makes it return nil without reading the response body,
    and a status outside 200-299 makes it return the error of the
    request. *)
Theorem UpdateSObject_outcome sobj blacklist w reqData res :
  SObjectM.Type' sobj <> "" ->
  SObjectM.ID sobj <> "" ->
  Current.json_Marshal env (SObjectM.makeCopy sobj blacklist) = inr reqData ->
  let url := Current.endpoint (client w)
               ("sobjects/" ++ SObjectM.Type' sobj ++ "/" ++ SObjectM.ID sobj) in
  let req := mkRequest MethodPatch url (Some reqData)
               {[ "Content-Type" := ["application/json"] ]} in
  Current.url_Parse_error env url = None ->
  Current.httpClient (client w) (sent w) req = inr res ->
  ((200 <= StatusCode res <= 299)%Z ->
     Current.UpdateSObject env sobj blacklist w =
       Ret ((sobj, None), Current.after_send w req))
  /\ ((StatusCode res < 200 \/ 299 < StatusCode res)%Z ->
        Current.UpdateSObject env sobj blacklist w =
          Ret ((sobj, Some (Current.failure_error env res)),
               Current.after_send w req)).
Proof.
  intros Hty Hid Hmarshal url req Hurl Hdo.
  split; intros Hcode; unfold Current.UpdateSObject;
    rewrite (nonempty_eqb _ Hty), (nonempty_eqb _ Hid), Hmarshal;
    unfold bind at 1; rewrite makeURL_endpoint; unfold bind; fold url.
  - rewrite (request_on_success MethodPatch url (Some reqData) None w res
               Hurl Hdo Hcode).
    reflexivity.
  - destruct (request_failure_error MethodPatch url (Some reqData) None w res
                Hurl Hdo Hcode) as [r ->].
    reflexivity.
Qed.

(** X8: for a record with type and id, [DeleteSObject] sends one DELETE
    without a body to the record's endpoint; it returns nil for a 2xx
    answer and the error of the request for a status outside 200-299,
    and the record is as it was in both cases. *)
Theorem DeleteSObject_outcome sobj w res :
  SObjectM.Type' sobj <> "" ->
  SObjectM.ID sobj <> "" ->
  let url := Current.endpoint (client w)
               ("sobjects/" ++ SObjectM.Type' sobj ++ "/" ++ SObjectM.ID sobj) in
  let req := mkRequest MethodDelete url None
               {[ "Content-Type" := ["application/json"] ]} in
  Current.url_Parse_error env url = None ->
  Current.httpClient (client w) (sent w) req = inr res ->
  ((200 <= StatusCode res <= 299)%Z ->
     Current.DeleteSObject env sobj w =
       Ret ((sobj, None), Current.after_send w req))
  /\ ((StatusCode res < 200 \/ 299 < StatusCode res)%Z ->
        Current.DeleteSObject env sobj w =
          Ret ((sobj, Some (Current.failure_error env res)),
               Current.after_send w req)).
Proof.
  intros Hty Hid url req Hurl Hdo.
  split; intros Hcode; unfold Current.DeleteSObject;
    rewrite (nonempty_length _ Hty), (nonempty_length _ Hid);
    unfold bind at 1; rewrite makeURL_endpoint; unfold bind; fold url.
  - rewrite (request_on_success MethodDelete url None None w res Hurl Hdo Hcode).
    reflexivity.
  - destruct (request_failure_error MethodDelete url None None w res
                Hurl Hdo Hcode) as [r ->].
    reflexivity.
Qed.

(** [DownloadFile] and [DescribeGlobal] pass a [Content-Type] of their
    own, so their headers go out as they are. *)
Lemma requestHeader_jsonHeaders :
  Current.requestHeader (Some Current.jsonHeaders) = Current.jsonHeaders.
Proof. reflexivity. Qed.

(** [io.Copy] when no write fails. *)
Lemma io_Copy_written {C} write_error path body (w : World C) :
  unread body = "" \/ write_error path (unread body) = None ->
  io_Copy write_error path body w =
    Ret (fault body,
         mkWorld (client w) (sent w) (<[path := unread body]> (files w))).
Proof.
  unfold io_Copy. intros [Hempty|Hwrite].
  - rewrite Hempty. reflexivity.
  - rewrite Hwrite. destruct (String.eqb (unread body) ""); reflexivity.
Qed.

(** [io.Copy] when a write fails. *)
Lemma io_Copy_write_failed {C} write_error path body (w : World C) n e :
  unread body <> "" ->
  write_error path (unread body) = Some (n, e) ->
  io_Copy write_error path body w =
    Ret (Some e,
         mkWorld (client w) (sent w)
                 (<[path := String.substring 0 n (unread body)]> (files w))).
Proof.
  unfold io_Copy. intros Hbytes Hwrite.
  apply String.eqb_neq in Hbytes. rewrite Hbytes, Hwrite. reflexivity.
Qed.

(** X9: when the download request is answered with a 2xx response and
    the destination can be created, [DownloadFile] copies the body to the
    destination and leaves every other file as it was.  If no write
    fails, the destination holds exactly the bytes the body delivered and
    the value returned is the read error of the body: nil after a
    complete body, and the error after a body that failed part-way, in
    which case the partial content stays in the file.  If a write fails
    with an error after [n] bytes, that error is returned and the
    destination holds the first [n] bytes the body delivered.  The
    request carries the operation's own [Content-Type] and [Accept]. *)
Theorem DownloadFile_writes_body id filepath w res :
  let url := Current.endpoint (client w)
               ("sobjects/ContentVersion/" ++ id ++ "/VersionData") in
  let req := mkRequest MethodGet url None Current.jsonHeaders in
  let data := unread (RespBody res) in
  Current.url_Parse_error env url = None ->
  Current.httpClient (client w) (sent w) req = inr res ->
  (200 <= StatusCode res <= 299)%Z ->
  Current.os_Create_error env (files w) filepath = None ->
  (data = "" \/ Current.io_Write_error env filepath data = None ->
     Current.DownloadFile env id filepath w =
       Ret (fault (RespBody res),
            mkWorld (client w) (sent w ++ [req])
                    (<[filepath := data]> (files w))))
  /\ (forall n e,
        data <> "" ->
        Current.io_Write_error env filepath data = Some (n, e) ->
        Current.DownloadFile env id filepath w =
          Ret (Some e,
               mkWorld (client w) (sent w ++ [req])
                       (<[filepath := String.substring 0 n data]> (files w))))
  /\ ReqHeader req !! "Content-Type" = Some ["application/json; charset=UTF-8"]
  /\ ReqHeader req !! "Accept" = Some ["application/json"].
Proof.
  intros url req data Hurl Hdo Hcode Hcreate.
  assert (Hrun : Current.DownloadFile env id filepath w =
    io_Copy (Current.io_Write_error env) filepath (RespBody res)
      (mkWorld (client w) (sent w ++ [req]) (<[filepath := ""]> (files w)))).
  { unfold Current.DownloadFile. unfold bind at 1.
    change (Current.baseURL (client w) ++ "/services/data/"
              ++ Current.apiVersion (client w) ++ "/sobjects/ContentVersion/"
              ++ id ++ "/VersionData") with url.
    rewrite (request_on_success MethodGet url None (Some Current.jsonHeaders)
               w res Hurl Hdo Hcode).
    unfold Current.deref, bind, os_Create, Current.after_send.
    cbn [files client sent]. rewrite Hcreate. reflexivity. }
  rewrite Hrun. split; [|split; [|split; reflexivity]].
  - intros Hwrite. rewrite (io_Copy_written _ _ _ _ Hwrite).
    cbn [files client sent]. rewrite insert_insert_eq. reflexivity.
  - intros n e Hbytes Hwrite.
    rewrite (io_Copy_write_failed _ _ _ _ n e Hbytes Hwrite).
    cbn [files client sent]. rewrite insert_insert_eq. reflexivity.
Qed.

(** X10: when the download request is answered with a 2xx response but
    [os.Create] fails, [DownloadFile] returns the error of [os.Create];
    the request has been sent and no file has changed. *)
Theorem DownloadFile_create_failure id filepath w res e :
  let url := Current.endpoint (client w)
               ("sobjects/ContentVersion/" ++ id ++ "/VersionData") in
  let req := mkRequest MethodGet url None Current.jsonHeaders in
  Current.url_Parse_error env url = None ->
  Current.httpClient (client w) (sent w) req = inr res ->
  (200 <= StatusCode res <= 299)%Z ->
  Current.os_Create_error env (files w) filepath = Some e ->
  Current.DownloadFile env id filepath w =
    Ret (Some e, mkWorld (client w) (sent w ++ [req]) (files w)).
Proof.
  intros url req Hurl Hdo Hcode Hcreate.
  unfold Current.DownloadFile. unfold bind at 1.
  change (Current.baseURL (client w) ++ "/services/data/"
            ++ Current.apiVersion (client w) ++ "/sobjects/ContentVersion/"
            ++ id ++ "/VersionData") with url.
  rewrite (request_on_success MethodGet url None (Some Current.jsonHeaders) w res
             Hurl Hdo Hcode).
  unfold Current.deref, bind, os_Create, Current.after_send.
  cbn [files client sent]. rewrite Hcreate. reflexivity.
Qed.

(** X11: [Query] hands on what decoding the body of a 2xx response
    yields, a result or the decoding error with a nil result; for a status
    outside 200-299 it returns a nil result and the error of the request
    without decoding the body as a query result. *)
Theorem Query_outcome query token w res :
  let path := if (0 <? String.length token)%nat then token
              else "/services/data/" ++ Current.apiVersion (client w)
                     ++ "/query?q=" ++ url.PathEscape query in
  let u := Current.baseURL (client w) ++ path in
  let req := mkRequest MethodGet u None
               {[ "Content-Type" := ["application/json"] ]} in
  Current.url_Parse_error env u = None ->
  Current.httpClient (client w) (sent w) req = inr res ->
  ((200 <= StatusCode res <= 299)%Z ->
     Current.Query env query token w =
       Ret (match Current.Decode_QueryResult env (RespBody res) with
            | inl e => (None, Some e)
            | inr result => (Some result, None)
            end, Current.after_send w req))
  /\ ((StatusCode res < 200 \/ 299 < StatusCode res)%Z ->
        Current.Query env query token w =
          Ret ((None, Some (Current.failure_error env res)),
               Current.after_send w req)).
Proof.
  intros path u req Hurl Hdo.
  split; intros Hcode; unfold Current.Query; fold path; fold u; unfold bind.
  - rewrite (request_on_success MethodGet u None None w res Hurl Hdo Hcode).
    unfold Current.deref.
    destruct (Current.Decode_QueryResult env (RespBody res)); reflexivity.
  - destruct (request_failure_error MethodGet u None None w res
                Hurl Hdo Hcode) as [r ->].
    reflexivity.
Qed.

(** X12: [DescribeSObject] returns the validation error without a
    request for a record whose type is empty; otherwise it requests the
    [describe] resource of the type and hands on what decoding the body
    of a 2xx response yields, or the error of the request for a status
    outside 200-299. *)
Theorem DescribeSObject_outcome sobj w :
  (SObjectM.Type' sobj = "" ->
     Current.DescribeSObject env sobj w = Ret ((None, Some ErrFailure), w))
  /\ (SObjectM.Type' sobj <> "" ->
      let url := Current.endpoint (client w)
                   ("sobjects/" ++ SObjectM.Type' sobj ++ "/describe") in
      let req := mkRequest MethodGet url None
                   {[ "Content-Type" := ["application/json"] ]} in
      Current.url_Parse_error env url = None ->
      forall res, Current.httpClient (client w) (sent w) req = inr res ->
      ((200 <= StatusCode res <= 299)%Z ->
         Current.DescribeSObject env sobj w =
           Ret (match Current.Decode_SObjectMeta env (RespBody res) with
                | inl e => (None, Some e)
                | inr meta => (Some meta, None)
                end, Current.after_send w req))
      /\ ((StatusCode res < 200 \/ 299 < StatusCode res)%Z ->
            Current.DescribeSObject env sobj w =
              Ret ((None, Some (Current.failure_error env res)),
                   Current.after_send w req))).
Proof.
  split.
  - intros Hty. unfold Current.DescribeSObject. rewrite Hty. reflexivity.
  - intros Hty url req Hurl res Hdo.
    split; intros Hcode; unfold Current.DescribeSObject;
      rewrite (nonempty_eqb _ Hty);
      unfold bind at 1; rewrite makeURL_endpoint; unfold bind; fold url.
    + rewrite (request_on_success MethodGet url None None w res Hurl Hdo Hcode).
      unfold Current.deref.
      destruct (Current.Decode_SObjectMeta env (RespBody res)); reflexivity.
    + destruct (request_failure_error MethodGet url None None w res
                  Hurl Hdo Hcode) as [r ->].
      reflexivity.
Qed.

(** X13: [DescribeGlobal] requests the [sobjects] resource with its own
    [Content-Type] and [Accept] headers and hands on what decoding the
    body of a 2xx response yields, or the error of the request for a
    status outside 200-299. *)
Theorem DescribeGlobal_outcome w res :
  let url := Current.endpoint (client w) "sobjects" in
  let req := mkRequest MethodGet url None Current.jsonHeaders in
  Current.url_Parse_error env url = None ->
  Current.httpClient (client w) (sent w) req = inr res ->
  ((200 <= StatusCode res <= 299)%Z ->
     Current.DescribeGlobal env w =
       Ret (match Current.Decode_SObjectMeta env (RespBody res) with
            | inl e => (None, Some e)
            | inr meta => (Some meta, None)
            end, Current.after_send w req))
  /\ ((StatusCode res < 200 \/ 299 < StatusCode res)%Z ->
        Current.DescribeGlobal env w =
          Ret ((None, Some (Current.failure_error env res)),
               Current.after_send w req)).
Proof.
  intros url req Hurl Hdo.
  split; intros Hcode; unfold Current.DescribeGlobal; unfold bind;
    change (Current.baseURL (client w) ++ "/services/data/"
              ++ Current.apiVersion (client w) ++ "/sobjects") with url.
  - rewrite (request_on_success MethodGet url None (Some Current.jsonHeaders)
               w res Hurl Hdo Hcode).
    unfold Current.deref.
    destruct (Current.Decode_SObjectMeta env (RespBody res)); reflexivity.
  - destruct (request_failure_error MethodGet url None
                (Some Current.jsonHeaders) w res Hurl Hdo Hcode) as [r ->].
    reflexivity.
Qed.

(** [request] leaves the files as they are. *)
Lemma request_keeps_files method url body headers w result w' :
  Current.request env method url body headers w = Ret (result, w') ->
  files w' = files w.
Proof. intros H. apply request_effect in H. apply H. Qed.

(** Finishes a branch of an operation that does not write files. *)
Ltac keep_files :=
  unfold Current.deref, ret, panic;
  repeat match goal with
         | |- context [match ?x with _ => _ end] => destruct x
         end;
  try discriminate;
  intros [= <- <-]; first [reflexivity | assumption].

(** Splits on the result of the request of an operation. *)
Ltac on_request :=
  unfold bind;
  match goal with
  | |- context [Current.request env ?m ?u ?b ?h ?w] =>
      let H := fresh "Hreq" in
      destruct (Current.request env m u b h w) as [[[? [?|]] ?]|] eqn:H;
      [apply request_keeps_files in H ..
      |exfalso; exact (request_never_panics env _ _ _ _ _ H)]
  end.

(** X14: only [DownloadFile] writes files: every other operation that
    returns leaves the file system exactly as it was. *)
Theorem only_DownloadFile_writes_files w w' :
  (forall q t r, Current.Query env q t w = Ret (r, w') -> files w' = files w)
  /\ (forall o r, Current.DescribeSObject env o w = Ret (r, w') -> files w' = files w)
  /\ (forall o b r, Current.CreateSObject env o b w = Ret (r, w') -> files w' = files w)
  /\ (forall o r, Current.GetSObject env o w = Ret (r, w') -> files w' = files w)
  /\ (forall o b r, Current.UpdateSObject env o b w = Ret (r, w') -> files w' = files w)
  /\ (forall o r, Current.DeleteSObject env o w = Ret (r, w') -> files w' = files w)
  /\ (forall r, Current.DescribeGlobal env w = Ret (r, w') -> files w' = files w).
Proof.
  repeat apply conj.
  - intros q t r. unfold Current.Query. on_request; keep_files.
  - intros o r. unfold Current.DescribeSObject.
    destruct (String.eqb _ ""); [keep_files|].
    unfold bind at 1; rewrite makeURL_endpoint. on_request; keep_files.
  - intros o b r. unfold Current.CreateSObject.
    destruct (String.eqb _ ""); [keep_files|].
    destruct (Current.json_Marshal env _); [keep_files|].
    unfold bind at 1; rewrite makeURL_endpoint. on_request; keep_files.
  - intros o r. unfold Current.GetSObject.
    destruct (_ =? 0)%nat; [keep_files|].
    destruct (_ =? 0)%nat; [keep_files|].
    unfold bind at 1; rewrite makeURL_endpoint. on_request; keep_files.
  - intros o b r. unfold Current.UpdateSObject.
    destruct (String.eqb _ ""); [keep_files|].
    destruct (String.eqb _ ""); [keep_files|].
    destruct (Current.json_Marshal env _); [keep_files|].
    unfold bind at 1; rewrite makeURL_endpoint. on_request; keep_files.
  - intros o r. unfold Current.DeleteSObject.
    destruct (_ =? 0)%nat; [keep_files|].
    destruct (_ =? 0)%nat; [keep_files|].
    unfold bind at 1; rewrite makeURL_endpoint. on_request; keep_files.
  - intros r. unfold Current.DescribeGlobal. on_request; keep_files.
Qed.

End CurrentBehaviour.

(** * What the server reads as the query *)

Lemma Split_head s c : exists piece pieces, strings.Split s c = piece :: pieces.
Proof.
  induction s as [|x s (piece & pieces & IH)]; [eexists _, _; reflexivity|].
  cbn [strings.Split]. rewrite IH.
  destruct (Ascii.eqb x c); eexists _, _; reflexivity.
Qed.

Lemma Split_first a b c :
  strings.ContainsByte a c = false ->
  strings.Split (a ++ String c b) c = a :: strings.Split b c.
Proof.
  induction a as [|x a IH].
  - intros _. change ("" ++ String c b) with (String c b).
    cbn [strings.Split].
    destruct (Split_head b c) as (piece & pieces & ->).
    rewrite Ascii.eqb_refl. reflexivity.
  - change (String x a ++ String c b) with (String x (a ++ String c b)).
    cbn [strings.ContainsByte strings.Split].
    destruct (Ascii.eqb x c); [discriminate|].
    intros H. rewrite (IH H). reflexivity.
Qed.

(** [strings.Cut] splits a text at the first separator. *)
Lemma Cut_spec s c :
  let '(before, after, found) := strings.Cut s c in
  strings.ContainsByte before c = false
  /\ if found then s = before ++ String c after
     else s = before /\ after = "".
Proof.
  induction s as [|x s IH]; [repeat split|].
  cbn [strings.Cut].
  destruct (Ascii.eqb_spec x c) as [->|Hne].
  - split; reflexivity.
  - destruct (strings.Cut s c) as [[before after] found].
    destruct IH as [Hb Hs]. split.
    + cbn [strings.ContainsByte]. rewrite Hb.
      destruct (Ascii.eqb_spec x c); [contradiction|reflexivity].
    + destruct found.
      * rewrite Hs. reflexivity.
      * destruct Hs as [-> ->]. split; reflexivity.
Qed.

Lemma PathEscape_app a b :
  url.PathEscape (a ++ b) = url.PathEscape a ++ url.PathEscape b.
Proof.
  induction a as [|x a IH]; [reflexivity|].
  change (String x a ++ b) with (String x (a ++ b)).
  cbn [url.PathEscape]. rewrite IH.
  destruct (url.shouldEscape_pathSegment x); reflexivity.
Qed.

(** Reading a path-escaped text back as a query component turns each
    [+] of the text into a space and gives back every other byte. *)
Lemma QueryUnescape_PathEscape_plus s :
  url.QueryUnescape (url.PathEscape s) = Some (strings.ReplaceByte s "+" " ").
Proof.
  induction s as [|c s IH]; [reflexivity|].
  cbn [url.PathEscape strings.ReplaceByte].
  destruct (url.shouldEscape_pathSegment c) eqn:Hesc.
  - destruct (hex_digits_roundtrip c) as (Hhi & Hlo & Hbyte).
    cbn [url.QueryUnescape]. rewrite Ascii.eqb_refl, Hhi, Hlo, IH, Hbyte.
    destruct (Ascii.eqb_spec c "+") as [->|]; [discriminate Hesc|reflexivity].
  - destruct (kept_byte_is_plain c Hesc) as (Hpct & _).
    cbn [url.QueryUnescape]. rewrite Hpct, IH.
    destruct (Ascii.eqb c "+"); reflexivity.
Qed.

Lemma ReplaceByte_length s c d :
  String.length (strings.ReplaceByte s c (String d "")) = String.length s.
Proof.
  induction s as [|x s IH]; [reflexivity|].
  cbn [strings.ReplaceByte]. destruct (Ascii.eqb x c).
  - change (String d "" ++ strings.ReplaceByte s c (String d ""))
      with (String d (strings.ReplaceByte s c (String d ""))).
    cbn [String.length]. rewrite IH. reflexivity.
  - cbn [String.length]. rewrite IH. reflexivity.
Qed.

Lemma ReplaceByte_absent s c new :
  strings.ContainsByte s c = false -> strings.ReplaceByte s c new = s.
Proof.
  induction s as [|x s IH]; [reflexivity|].
  cbn [strings.ContainsByte strings.ReplaceByte].
  destruct (Ascii.eqb x c); [discriminate|].
  intros H. rewrite (IH H). reflexivity.
Qed.

Lemma ReplaceByte_fixed s c d :
  c <> d ->
  strings.ReplaceByte s c (String d "") = s -> strings.ContainsByte s c = false.
Proof.
  intros Hcd. induction s as [|x s IH]; [reflexivity|].
  cbn [strings.ContainsByte strings.ReplaceByte].
  destruct (Ascii.eqb_spec x c) as [->|Hne].
  - change (String d "" ++ strings.ReplaceByte s c (String d ""))
      with (String d (strings.ReplaceByte s c (String d ""))).
    intros [= Hd _]. congruence.
  - intros [= H]. exact (IH H).
Qed.

Lemma length_app a b :
  String.length (a ++ b) = (String.length a + String.length b)%nat.
Proof.
  induction a as [|x a IH]; [reflexivity|].
  change (String x a ++ b) with (String x (a ++ b)).
  cbn [String.length]. rewrite IH. reflexivity.
Qed.

(** The pieces of the raw query of a SOQL request start with the
    [q] pair. *)
Lemma ParseQuery_of_query q :
  exists others,
    url.ParseQuery ("q=" ++ url.PathEscape q)
    = ("q", strings.ReplaceByte (strings.Cut q "&").1.1 "+" " ") :: others.
Proof.
  pose proof (Cut_spec q "&") as Hcut.
  destruct (strings.Cut q "&") as [[before after] found].
  destruct Hcut as [Hbefore Hq]. cbn [fst].
  assert (Hpiece : url.parsePiece ("q=" ++ url.PathEscape before)
                   = Some ("q", strings.ReplaceByte before "+" " ")).
  { unfold url.parsePiece.
    rewrite ContainsByte_app, (PathEscape_lacks before ";") by auto.
    change ("q=" ++ url.PathEscape before)
      with (String "q" (String "=" (url.PathEscape before))).
    cbn [strings.ContainsByte orb String.eqb strings.Cut].
    change (Ascii.eqb "q" "=") with false.
    change (Ascii.eqb "=" "=") with true.
    cbv iota beta.
    rewrite QueryUnescape_PathEscape_plus. reflexivity. }
  assert (Hamp : strings.ContainsByte ("q=" ++ url.PathEscape before) "&" = false).
  { rewrite ContainsByte_app, (PathEscape_lacks before "&"); auto. }
  unfold url.ParseQuery. destruct found.
  - rewrite Hq, PathEscape_app.
    change (url.PathEscape (String "&" after))
      with (String "&" (url.PathEscape after)).
    rewrite <- append_assoc, (Split_first _ _ _ Hamp).
    cbn [omap list_omap]. rewrite Hpiece. eexists. reflexivity.
  - destruct Hq as [-> _].
    rewrite (Split_absent _ _ Hamp).
    cbn [omap list_omap]. rewrite Hpiece. eexists. reflexivity.
Qed.

Section QueryReceived.

Variable env : Current.Collaborators.

(** X15: with an empty token, [Query] sends the query path-escaped in
    the [q] parameter of its URL, and what the server reads from that
    parameter is the text of the query up to its first [&], with every
    [+] turned into a space (the base URL and the API version holding no
    [?] or [#]).  So the query arrives unchanged exactly when it holds
    neither [&] nor [+]. *)
Theorem Query_q_parameter_received query w :
  let h := client w in
  let u := Current.baseURL h ++ "/services/data/" ++ Current.apiVersion h
             ++ "/query?q=" ++ url.PathEscape query in
  strings.ContainsByte (Current.baseURL h) "#" = false ->
  strings.ContainsByte (Current.baseURL h) "?" = false ->
  strings.ContainsByte (Current.apiVersion h) "#" = false ->
  strings.ContainsByte (Current.apiVersion h) "?" = false ->
  (Current.url_Parse_error env u = None ->
   exists result,
     Current.Query env query "" w =
       Ret (result,
            Current.after_send w
              (mkRequest MethodGet u None
                 {[ "Content-Type" := ["application/json"] ]})))
  /\ url.Get (url.Query u) "q"
     = strings.ReplaceByte (strings.Cut query "&").1.1 "+" " "
  /\ (url.Get (url.Query u) "q" = query <->
      strings.ContainsByte query "&" = false
      /\ strings.ContainsByte query "+" = false).
Proof.
  intros h u Hb1 Hb2 Hv1 Hv2.
  assert (Hget : url.Get (url.Query u) "q"
                 = strings.ReplaceByte (strings.Cut query "&").1.1 "+" " ").
  { unfold url.Query. subst u.
    rewrite RawQuery_of_query_url by assumption.
    destruct (ParseQuery_of_query query) as [others ->]. reflexivity. }
  split; [exact (Query_sends env query "" w)|].
  split; [exact Hget|].
  rewrite Hget. clear Hget.
  pose proof (Cut_spec query "&") as Hcut.
  destruct (strings.Cut query "&") as [[before after] found].
  destruct Hcut as [Hbefore Hq]. cbn [fst].
  destruct found.
  - split.
    + intros Heq. apply (f_equal String.length) in Heq.
      rewrite ReplaceByte_length, Hq, length_app in Heq.
      cbn [String.length] in Heq. lia.
    + intros [Hamp _]. rewrite Hq, ContainsByte_app in Hamp.
      cbn [strings.ContainsByte] in Hamp.
      rewrite Ascii.eqb_refl, orb_true_r in Hamp. discriminate.
  - destruct Hq as [-> _]. split.
    + intros Heq. split; [exact Hbefore|].
      apply (ReplaceByte_fixed before "+" " "); [discriminate|exact Heq].
    + intros [_ Hplus]. apply ReplaceByte_absent, Hplus.
Qed.

End QueryReceived.

(** * Further properties of the earlier client *)

Lemma HasSuffix_app_slash s : strings.HasSuffix (s ++ "/") "/" = true.
Proof.
  induction s as [|x s IH]; [reflexivity|].
  change (String x s ++ "/") with (String x (s ++ "/")).
  destruct s as [|y s]; [reflexivity|].
  change (String y s ++ "/") with (String y (s ++ "/")) in *.
  rewrite HasSuffix_cons. exact IH.
Qed.

Lemma TrimRightByte_app_slash s :
  strings.TrimRightByte (s ++ "/") "/" = strings.TrimRightByte s "/".
Proof.
  induction s as [|x s IH]; [reflexivity|].
  change (String x s ++ "/") with (String x (s ++ "/")).
  cbn [strings.TrimRightByte]. rewrite IH. reflexivity.
Qed.

Lemma TrimRightByte_no_trailing s :
  strings.HasSuffix (strings.TrimRightByte s "/") "/" = false.
Proof.
  induction s as [|x s IH]; [reflexivity|].
  cbn [strings.TrimRightByte].
  destruct (strings.TrimRightByte s "/") as [|y kept] eqn:Hkept.
  - destruct (Ascii.eqb_spec x "/") as [->|Hne]; [reflexivity|].
    unfold strings.HasSuffix. cbn.
    destruct (Ascii.eqb_spec x "/"); [contradiction|reflexivity].
  - rewrite HasSuffix_cons. exact IH.
Qed.

Lemma ReplaceByte_removes s c :
  strings.ContainsByte (strings.ReplaceByte s c "") c = false.
Proof.
  induction s as [|x s IH]; [reflexivity|].
  cbn [strings.ReplaceByte].
  destruct (Ascii.eqb x c) eqn:Hx; [exact IH|].
  cbn [strings.ContainsByte]. rewrite Hx, IH. reflexivity.
Qed.

(** The base URL the earlier constructor stores. *)
Lemma Legacy_baseURL_cases (t : Transport) (u ver : string) :
  Legacy.baseURL (Legacy.NewHTTPClient t u ver)
  = if strings.HasSuffix u "/" then u else u ++ "/".
Proof.
  unfold Legacy.NewHTTPClient. cbn [Legacy.baseURL].
  destruct (strings.HasSuffix u "/"); reflexivity.
Qed.

Lemma Legacy_apiVersion_stored (t : Transport) (u ver : string) :
  Legacy.apiVersion (Legacy.NewHTTPClient t u ver) = ver.
Proof.
  unfold Legacy.NewHTTPClient. cbn [Legacy.baseURL].
  destruct (strings.HasSuffix u "/"); reflexivity.
Qed.

(** X16: the earlier constructor stores a base URL that always ends in
    [/]: the URL as given when it already ends in [/], and the URL
    followed by [/] otherwise.  The API version is stored as given and
    the instance URL is left empty. *)
Theorem Legacy_NewHTTPClient_baseURL (t : Transport) (u ver : string) :
  let h := Legacy.NewHTTPClient t u ver in
  strings.HasSuffix (Legacy.baseURL h) "/" = true
  /\ (strings.HasSuffix u "/" = true -> Legacy.baseURL h = u)
  /\ (strings.HasSuffix u "/" = false -> Legacy.baseURL h = u ++ "/")
  /\ Legacy.apiVersion h = ver
  /\ Legacy.instanceURL h = "".
Proof.
  cbv zeta. rewrite Legacy_baseURL_cases, Legacy_apiVersion_stored.
  destruct (strings.HasSuffix u "/") eqn:Hs.
  - repeat split; auto; [discriminate|].
    unfold Legacy.NewHTTPClient. cbn [Legacy.baseURL]. rewrite Hs. reflexivity.
  - repeat split; auto; [apply HasSuffix_app_slash|discriminate|].
    unfold Legacy.NewHTTPClient. cbn [Legacy.baseURL]. rewrite Hs. reflexivity.
Qed.

(** X17: the earlier [makeURL] is idempotent on the client: after one
    call the stored API version holds no [v], and a second call with the
    same argument returns the same URL and leaves the client as the first
    call left it.  The URL is built from the instance URL, not from the
    base URL. *)
Theorem Legacy_makeURL_idempotent req w url w' :
  Legacy.makeURL req w = Ret (url, w') ->
  strings.ContainsByte (Legacy.apiVersion (client w')) "v" = false
  /\ Legacy.makeURL req w' = Ret (url, w')
  /\ url = Legacy.instanceURL (client w) ++ "/services/data/v"
             ++ strings.ReplaceByte (Legacy.apiVersion (client w)) "v" ""
             ++ "/" ++ req.
Proof.
  unfold Legacy.makeURL. intros [= <- <-].
  cbn [client sent files Legacy.apiVersion Legacy.instanceURL Legacy.baseURL
       Legacy.httpClient].
  split; [apply ReplaceByte_removes|]. split; [|reflexivity].
  rewrite (ReplaceByte_absent _ "v" "" (ReplaceByte_removes _ _)).
  reflexivity.
Qed.

(** X18: the URLs that the earlier [DownloadFile] and [DescribeGlobal]
    request do not depend on trailing slashes of the URL given to the
    constructor: the host part is that URL with every trailing [/]
    removed, so it never ends in [/], and the path follows it
    directly. *)
Theorem Legacy_urls_trim_trailing_slashes (t : Transport) (u ver id : string) :
  let h := Legacy.NewHTTPClient t u ver in
  let host := strings.TrimRightByte u "/" in
  Legacy.DownloadFile_url h id
  = host ++ "/services/data/v" ++ ver ++ "/sobjects/ContentVersion/" ++ id
      ++ "/VersionData"
  /\ Legacy.DescribeGlobal_url h = host ++ "/services/data/v" ++ ver ++ "/sobjects"
  /\ strings.HasSuffix host "/" = false
  /\ Legacy.DownloadFile_url (Legacy.NewHTTPClient t (u ++ "/") ver) id
     = Legacy.DownloadFile_url h id.
Proof.
  intros h host.
  assert (Hbase : forall x,
    strings.TrimRightByte (Legacy.baseURL (Legacy.NewHTTPClient t x ver)) "/"
    = strings.TrimRightByte x "/").
  { intros x. rewrite Legacy_baseURL_cases.
    destruct (strings.HasSuffix x "/"); [reflexivity|].
    apply TrimRightByte_app_slash. }
  assert (Hver : forall x, Legacy.apiVersion (Legacy.NewHTTPClient t x ver) = ver).
  { intros x. apply Legacy_apiVersion_stored. }
  unfold Legacy.DownloadFile_url, Legacy.DescribeGlobal_url.
  subst h host. rewrite !Hbase, !Hver, TrimRightByte_app_slash.
  repeat split. apply TrimRightByte_no_trailing.
Qed.

Section LegacyBehaviour.

Variable url_Parse_error : string -> error.
Variable os_Create_error : gmap string string -> string -> error.
Variable io_Write_error : string -> string -> option (nat * GoError).
Variable Decode_errorPayload : string -> option (string * string).
Variable Unmarshal_SObjectMeta : string -> GoError + gmap string Value.

(** The headers the earlier [DownloadFile] and [DescribeGlobal] add to
    their request. *)
Lemma Legacy_added_headers :
  Header_Add (Header_Add ∅ "Content-Type" "application/json; charset=UTF-8")
             "Accept" "application/json"
  = Current.jsonHeaders.
Proof. reflexivity. Qed.

(** X19: the earlier [DownloadFile] copies the body of whatever response
    it gets: for every status code, when the destination can be created
    and no write fails, the destination ends up holding the bytes the
    body delivered and the value returned is the read error of the body,
    so that an error page of the server is saved as the file with a nil
    error.  If a write fails with an error after [n] bytes, that error
    is returned and the destination holds the first [n] bytes. *)
Theorem Legacy_DownloadFile_writes_any_response id filepath w resp :
  let url := Legacy.DownloadFile_url (client w) id in
  let req := mkRequest MethodGet url None Current.jsonHeaders in
  let data := unread (RespBody resp) in
  url_Parse_error url = None ->
  Legacy.httpClient (client w) (sent w) req = inr resp ->
  os_Create_error (files w) filepath = None ->
  (data = "" \/ io_Write_error filepath data = None ->
     Legacy.DownloadFile url_Parse_error os_Create_error io_Write_error
       id filepath w =
       Ret (fault (RespBody resp),
            mkWorld (client w) (sent w ++ [req])
                    (<[filepath := data]> (files w))))
  /\ (forall n e,
        data <> "" ->
        io_Write_error filepath data = Some (n, e) ->
        Legacy.DownloadFile url_Parse_error os_Create_error io_Write_error
          id filepath w =
          Ret (Some e,
               mkWorld (client w) (sent w ++ [req])
                       (<[filepath := String.substring 0 n data]> (files w)))).
Proof.
  intros url req data Hurl Hdo Hcreate.
  assert (Hrun :
    Legacy.DownloadFile url_Parse_error os_Create_error io_Write_error
      id filepath w =
    io_Copy io_Write_error filepath (RespBody resp)
      (mkWorld (client w) (sent w ++ [req]) (<[filepath := ""]> (files w)))).
  { unfold Legacy.DownloadFile, NewRequest. fold url. rewrite Hurl.
    cbn [Method URL ReqBody ReqHeader]. rewrite Legacy_added_headers.
    unfold bind, Legacy.Do. fold req. rewrite Hdo.
    unfold os_Create. cbn [files client sent]. rewrite Hcreate. reflexivity. }
  rewrite Hrun. split.
  - intros Hwrite. rewrite (io_Copy_written _ _ _ _ Hwrite).
    cbn [files client sent]. rewrite insert_insert_eq. reflexivity.
  - intros n e Hbytes Hwrite.
    rewrite (io_Copy_write_failed _ _ _ _ n e Hbytes Hwrite).
    cbn [files client sent]. rewrite insert_insert_eq. reflexivity.
Qed.

(** X20: the earlier [httpRequest] sends the request with
    [Content-Type: application/json] as its only header.  For a status
    outside 200-299 it returns no data and the error parsed from the
    bytes the body delivered, whether or not reading the body failed;
    for a status in 200-299 it returns the bytes read together with the
    read error of the body. *)
Theorem Legacy_httpRequest_outcome method url body w resp :
  let req := mkRequest method url body
               {[ "Content-Type" := ["application/json"] ]} in
  let w' := mkWorld (client w) (sent w ++ [req]) (files w) in
  url_Parse_error url = None ->
  Legacy.httpClient (client w) (sent w) req = inr resp ->
  ((StatusCode resp < 200 \/ 299 < StatusCode resp)%Z ->
     Legacy.httpRequest url_Parse_error Decode_errorPayload method url body w =
       Ret ((None,
             Some (Legacy.ParseSalesforceError Decode_errorPayload
                     (StatusCode resp) (unread (RespBody resp)))), w'))
  /\ ((200 <= StatusCode resp <= 299)%Z ->
        Legacy.httpRequest url_Parse_error Decode_errorPayload method url body w =
          Ret ((Some (unread (RespBody resp)), fault (RespBody resp)), w')).
Proof.
  intros req w' Hurl Hdo.
  assert (Hheader : Header_Add ∅ "Content-Type" "application/json"
                    = {[ "Content-Type" := ["application/json"] ]})
    by reflexivity.
  split; intros Hcode; unfold Legacy.httpRequest, NewRequest; rewrite Hurl;
    cbn [Method URL ReqBody ReqHeader]; rewrite Hheader;
    unfold bind, Legacy.Do; fold req; rewrite Hdo.
  - replace ((StatusCode resp <? 200) || (299 <? StatusCode resp))%Z with true.
    + reflexivity.
    + symmetry. rewrite orb_true_iff, !Z.ltb_lt. exact Hcode.
  - replace ((StatusCode resp <? 200) || (299 <? StatusCode resp))%Z with false.
    + reflexivity.
    + symmetry. rewrite orb_false_iff, !Z.ltb_ge. lia.
Qed.

(** X21: the result of the earlier [DescribeGlobal] is decided by the
    bytes the body delivered alone: it is what [json.Unmarshal] makes of
    them, for every status code and whether or not reading the body
    failed. *)
Theorem Legacy_DescribeGlobal_outcome w resp :
  let url := Legacy.DescribeGlobal_url (client w) in
  let req := mkRequest MethodGet url None Current.jsonHeaders in
  url_Parse_error url = None ->
  Legacy.httpClient (client w) (sent w) req = inr resp ->
  Legacy.DescribeGlobal url_Parse_error Unmarshal_SObjectMeta w =
    Ret (match Unmarshal_SObjectMeta (unread (RespBody resp)) with
         | inl e => (None, Some e)
         | inr meta => (Some meta, None)
         end,
         mkWorld (client w) (sent w ++ [req]) (files w)).
Proof.
  intros url req Hurl Hdo.
  unfold Legacy.DescribeGlobal, NewRequest. fold url. rewrite Hurl.
  cbn [Method URL ReqBody ReqHeader]. rewrite Legacy_added_headers.
  unfold bind, Legacy.Do. fold req. rewrite Hdo.
  unfold Legacy.ioutil_ReadAll.
  destruct (Unmarshal_SObjectMeta (unread (RespBody resp))); reflexivity.
Qed.

End LegacyBehaviour.

(** * The further properties at concrete inputs *)

Lemma request_response_or_error_witness :
  let w := Sample.world (Sample.always (mkResponse 200 (NewBuffer "{}"))) in
  exists res err w',
    Current.request Sample.env MethodGet "https://example.my.salesforce.com/x"
      None None w = Ret ((res, err), w')
    /\ (res = None -> err <> None).
Proof.
  cbv zeta.
  destruct (request_response_or_error Sample.env MethodGet
              "https://example.my.salesforce.com/x" None None
              (Sample.world (Sample.always (mkResponse 200 (NewBuffer "{}")))))
    as (res & err & w' & Hrun & _ & Hnil & _).
  exists res, err, w'. split; [exact Hrun|exact Hnil].
Defined.


Lemma marshal_error_precedes_io_witness :
  let w := Sample.world (Sample.always (mkResponse 200 (NewBuffer "{}"))) in
  Current.CreateSObject Sample.env_marshal_fails Sample.case1 [] w
    = Ret ((Sample.case1, Some (ExternalError "json: unsupported value")), w)
  /\ Current.UpdateSObject Sample.env_marshal_fails Sample.case1 [] w
     = Ret ((Sample.case1, Some (ExternalError "json: unsupported value")), w).
Proof.
  cbv zeta.
  destruct (marshal_error_precedes_io Sample.env_marshal_fails Sample.case1 []
              (Sample.world (Sample.always (mkResponse 200 (NewBuffer "{}"))))
              (ExternalError "json: unsupported value")
              ltac:(vm_compute; discriminate) eq_refl)
    as [Hcreate Hupdate].
  split; [exact Hcreate|].
  apply Hupdate. vm_compute. discriminate.
Defined.

Lemma CreateSObject_null_response_panics_witness :
  Current.CreateSObject Sample.env Sample.case []
    (Sample.world (Sample.always (mkResponse 200 (NewBuffer "null"))))
  = Panic.
Proof.
  exact (CreateSObject_null_response_panics Sample.env Sample.case []
           (Sample.world (Sample.always (mkResponse 200 (NewBuffer "null"))))
           "{}" (mkResponse 200 (NewBuffer "null"))
           ltac:(vm_compute; discriminate) eq_refl eq_refl eq_refl
           ltac:(cbn; lia) eq_refl).
Defined.

Lemma CreateSObject_failing_status_witness :
  let w := Sample.world (Sample.always (mkResponse 400 (NewBuffer "object1"))) in
  exists w',
    Current.CreateSObject Sample.env Sample.case [] w
    = Ret ((Sample.case, Some ErrFailure), w')
    /\ SObjectM.ID Sample.case = "".
Proof.
  cbv zeta. eexists. split; [|reflexivity].
  exact (CreateSObject_failing_status Sample.env Sample.case []
           (Sample.world (Sample.always (mkResponse 400 (NewBuffer "object1"))))
           "{}" (mkResponse 400 (NewBuffer "object1"))
           ltac:(vm_compute; discriminate) eq_refl eq_refl eq_refl
           ltac:(right; cbn; lia)).
Defined.

Lemma GetSObject_outcome_witness :
  let w := Sample.world (Sample.always (mkResponse 200 (NewBuffer "{}"))) in
  exists w',
    Current.GetSObject Sample.env Sample.case1 w = Ret ((Sample.case1, None), w').
Proof.
  cbv zeta. eexists.
  apply (GetSObject_outcome Sample.env Sample.case1
           (Sample.world (Sample.always (mkResponse 200 (NewBuffer "{}"))))
           (mkResponse 200 (NewBuffer "{}"))
           ltac:(vm_compute; discriminate) ltac:(vm_compute; discriminate)
           eq_refl eq_refl).
  cbn. lia.
Defined.

Lemma UpdateSObject_outcome_witness :
  let w := Sample.world (Sample.always (mkResponse 500 (NewBuffer "[]"))) in
  exists w',
    Current.UpdateSObject Sample.env Sample.case1 [] w
    = Ret ((Sample.case1, Some ErrFailure), w').
Proof.
  cbv zeta. eexists.
  apply (UpdateSObject_outcome Sample.env Sample.case1 []
           (Sample.world (Sample.always (mkResponse 500 (NewBuffer "[]"))))
           "{}" (mkResponse 500 (NewBuffer "[]"))
           ltac:(vm_compute; discriminate) ltac:(vm_compute; discriminate)
           eq_refl eq_refl eq_refl).
  right. cbn. lia.
Defined.

Lemma DeleteSObject_outcome_witness :
  let w := Sample.world (Sample.always (mkResponse 204 (NewBuffer ""))) in
  exists w',
    Current.DeleteSObject Sample.env Sample.case1 w
    = Ret ((Sample.case1, None), w').
Proof.
  cbv zeta. eexists.
  apply (DeleteSObject_outcome Sample.env Sample.case1
           (Sample.world (Sample.always (mkResponse 204 (NewBuffer ""))))
           (mkResponse 204 (NewBuffer ""))
           ltac:(vm_compute; discriminate) ltac:(vm_compute; discriminate)
           eq_refl eq_refl).
  cbn. lia.
Defined.

Lemma DownloadFile_writes_body_witness :
  let body := mkBody "%PDF-1" (Some (ExternalError "unexpected EOF")) in
  let w := Sample.world (Sample.always (mkResponse 200 body)) in
  (exists w',
     Current.DownloadFile Sample.env "068x" "/tmp/out.bin" w
     = Ret (Some (ExternalError "unexpected EOF"), w')
     /\ files w' !! "/tmp/out.bin" = Some "%PDF-1")
  /\ (exists w',
        Current.DownloadFile Sample.env_write_fails "068x" "/tmp/out.bin" w
        = Ret (Some (ExternalError "write: no space left on device"), w')
        /\ files w' !! "/tmp/out.bin" = Some "%PD").
Proof.
  cbv zeta. split.
  - destruct (DownloadFile_writes_body Sample.env "068x" "/tmp/out.bin"
                (Sample.world (Sample.always
                   (mkResponse 200
                      (mkBody "%PDF-1" (Some (ExternalError "unexpected EOF"))))))
                (mkResponse 200
                   (mkBody "%PDF-1" (Some (ExternalError "unexpected EOF"))))
                eq_refl eq_refl ltac:(cbn; lia) eq_refl)
      as [Hrun _].
    eexists. split; [exact (Hrun (or_intror eq_refl))|reflexivity].
  - destruct (DownloadFile_writes_body Sample.env_write_fails "068x"
                "/tmp/out.bin"
                (Sample.world (Sample.always
                   (mkResponse 200
                      (mkBody "%PDF-1" (Some (ExternalError "unexpected EOF"))))))
                (mkResponse 200
                   (mkBody "%PDF-1" (Some (ExternalError "unexpected EOF"))))
                eq_refl eq_refl ltac:(cbn; lia) eq_refl)
      as (_ & Hrun & _).
    eexists. split.
    + exact (Hrun 3%nat (ExternalError "write: no space left on device")
               ltac:(cbn; discriminate) eq_refl).
    + reflexivity.
Defined.

Lemma DownloadFile_create_failure_witness :
  let w := Sample.world (Sample.always (mkResponse 200 (NewBuffer "%PDF-1"))) in
  exists w',
    Current.DownloadFile Sample.env_create_fails "068x" "/tmp/out.bin" w
    = Ret (Some (ExternalError "open: permission denied"), w')
    /\ files w' = files w /\ length (sent w') = 1%nat.
Proof.
  cbv zeta. eexists. split.
  - exact (DownloadFile_create_failure Sample.env_create_fails "068x"
             "/tmp/out.bin"
             (Sample.world (Sample.always (mkResponse 200 (NewBuffer "%PDF-1"))))
             (mkResponse 200 (NewBuffer "%PDF-1"))
             (ExternalError "open: permission denied")
             eq_refl eq_refl ltac:(cbn; lia) eq_refl).
  - split; reflexivity.
Defined.

Lemma Query_outcome_witness :
  let w := Sample.world (Sample.always (mkResponse 200 (NewBuffer "{}"))) in
  exists w',
    Current.Query Sample.env "SELECT Id FROM Account" "" w
    = Ret ((Some (Current.mkQueryResult 0 true "" []), None), w').
Proof.
  cbv zeta. eexists.
  apply (Query_outcome Sample.env "SELECT Id FROM Account" ""
           (Sample.world (Sample.always (mkResponse 200 (NewBuffer "{}"))))
           (mkResponse 200 (NewBuffer "{}")) eq_refl eq_refl).
  cbn. lia.
Defined.

Lemma DescribeSObject_outcome_witness :
  let w := Sample.world (Sample.always (mkResponse 200 (NewBuffer "{}"))) in
  Current.DescribeSObject Sample.env (mkSObject "" ∅) w
    = Ret ((None, Some ErrFailure), w)
  /\ exists w',
       Current.DescribeSObject Sample.env Sample.case w = Ret ((Some ∅, None), w').
Proof.
  cbv zeta. split.
  - apply (DescribeSObject_outcome Sample.env (mkSObject "" ∅)). reflexivity.
  - eexists.
    apply (proj2 (DescribeSObject_outcome Sample.env Sample.case
                    (Sample.world (Sample.always (mkResponse 200 (NewBuffer "{}")))))
             ltac:(vm_compute; discriminate) eq_refl
             (mkResponse 200 (NewBuffer "{}")) eq_refl).
    cbn. lia.
Defined.

Lemma DescribeGlobal_outcome_witness :
  let w := Sample.world (Sample.always (mkResponse 503 (NewBuffer ""))) in
  exists w',
    Current.DescribeGlobal Sample.env w = Ret ((None, Some ErrFailure), w').
Proof.
  cbv zeta. eexists.
  apply (DescribeGlobal_outcome Sample.env
           (Sample.world (Sample.always (mkResponse 503 (NewBuffer ""))))
           (mkResponse 503 (NewBuffer "")) eq_refl eq_refl).
  right. cbn. lia.
Defined.

Lemma only_DownloadFile_writes_files_witness :
  let w := Sample.world (Sample.always (mkResponse 204 (NewBuffer ""))) in
  exists r w',
    Current.DeleteSObject Sample.env Sample.case1 w = Ret (r, w')
    /\ files w' = files w.
Proof.
  cbv zeta.
  assert (Hrun : exists r w',
    Current.DeleteSObject Sample.env Sample.case1
      (Sample.world (Sample.always (mkResponse 204 (NewBuffer "")))) = Ret (r, w')).
  { eexists _, _. vm_compute. reflexivity. }
  destruct Hrun as (r & w' & Hrun). exists r, w'. split; [exact Hrun|].
  destruct (only_DownloadFile_writes_files Sample.env
              (Sample.world (Sample.always (mkResponse 204 (NewBuffer "")))) w')
    as (_ & _ & _ & _ & _ & Hdelete & _).
  exact (Hdelete _ _ Hrun).
Defined.

Lemma Query_q_parameter_received_witness :
  let q := "SELECT Id FROM Lead WHERE Company = 'R&D 1+1'" in
  let w := Sample.world (Sample.always (mkResponse 200 (NewBuffer "{}"))) in
  let u := Current.baseURL (client w) ++ "/services/data/"
             ++ Current.apiVersion (client w) ++ "/query?q=" ++ url.PathEscape q in
  url.Get (url.Query u) "q"
  = strings.ReplaceByte (strings.Cut q "&").1.1 "+" " ".
Proof.
  cbv zeta.
  destruct (Query_q_parameter_received Sample.env
              "SELECT Id FROM Lead WHERE Company = 'R&D 1+1'"
              (Sample.world (Sample.always (mkResponse 200 (NewBuffer "{}"))))
              eq_refl eq_refl eq_refl eq_refl)
    as (_ & Hget & _).
  exact Hget.
Defined.

(** The query [... Company = 'R&D 1+1'] arrives cut at its [&]. *)
Example Query_q_parameter_cut_at_ampersand :
  url.Get
    (url.Query
       ("https://example.my.salesforce.com/services/data/v43.0/query?q="
          ++ url.PathEscape "SELECT Id FROM Lead WHERE Company = 'R&D 1+1'"))
    "q"
  = "SELECT Id FROM Lead WHERE Company = 'R".
Proof. vm_compute. reflexivity. Qed.

Lemma Legacy_NewHTTPClient_baseURL_witness :
  Legacy.baseURL (Legacy.NewHTTPClient
                    (Sample.always (mkResponse 200 (NewBuffer "")))
                    "https://example.my.salesforce.com" "43.0")
  = "https://example.my.salesforce.com/".
Proof.
  apply (Legacy_NewHTTPClient_baseURL
           (Sample.always (mkResponse 200 (NewBuffer "")))
           "https://example.my.salesforce.com" "43.0").
  reflexivity.
Defined.

Lemma Legacy_makeURL_idempotent_witness :
  let w := Sample.legacy_world (Sample.always (mkResponse 200 (NewBuffer ""))) "v43.0" in
  exists w',
    Legacy.makeURL "sobjects" w = Ret ("/services/data/v43.0/sobjects", w')
    /\ Legacy.makeURL "sobjects" w' = Ret ("/services/data/v43.0/sobjects", w').
Proof.
  cbv zeta. eexists. split; [reflexivity|].
  apply (Legacy_makeURL_idempotent "sobjects"
           (Sample.legacy_world (Sample.always (mkResponse 200 (NewBuffer "")))
              "v43.0")).
  reflexivity.
Defined.

Lemma Legacy_DownloadFile_writes_any_response_witness :
  let w := Sample.legacy_world
             (Sample.always (mkResponse 500 (NewBuffer "Internal Server Error")))
             "43.0" in
  exists w',
    Legacy.DownloadFile (fun _ => None) (fun _ _ => None) (fun _ _ => None)
      "068x" "/tmp/out.bin" w
    = Ret (None, w')
    /\ files w' !! "/tmp/out.bin" = Some "Internal Server Error".
Proof.
  cbv zeta. eexists. split.
  - apply (Legacy_DownloadFile_writes_any_response (fun _ => None)
             (fun _ _ => None) (fun _ _ => None) "068x" "/tmp/out.bin"
             (Sample.legacy_world
                (Sample.always (mkResponse 500 (NewBuffer "Internal Server Error")))
                "43.0")
             (mkResponse 500 (NewBuffer "Internal Server Error"))
             eq_refl eq_refl eq_refl).
    right. reflexivity.
  - reflexivity.
Defined.

Lemma Legacy_httpRequest_outcome_witness :
  let body := mkBody "[{" (Some (ExternalError "unexpected EOF")) in
  let w := Sample.legacy_world (Sample.always (mkResponse 500 body)) "43.0" in
  exists w',
    Legacy.httpRequest (fun _ => None) (fun _ => None) MethodGet
      "https://example.my.salesforce.com/x" None w
    = Ret ((None, Some ErrFailure), w').
Proof.
  cbv zeta. eexists.
  apply (Legacy_httpRequest_outcome (fun _ => None) (fun _ => None) MethodGet
           "https://example.my.salesforce.com/x" None
           (Sample.legacy_world
              (Sample.always
                 (mkResponse 500
                    (mkBody "[{" (Some (ExternalError "unexpected EOF")))))
              "43.0")
           (mkResponse 500 (mkBody "[{" (Some (ExternalError "unexpected EOF"))))
           eq_refl eq_refl).
  right. cbn. lia.
Defined.

Lemma Legacy_DescribeGlobal_outcome_witness :
  let body := mkBody "{}" (Some (ExternalError "unexpected EOF")) in
  let w := Sample.legacy_world (Sample.always (mkResponse 500 body)) "43.0" in
  exists w',
    Legacy.DescribeGlobal (fun _ => None) (fun _ => inr ∅) w
    = Ret ((Some ∅, None), w').
Proof.
  cbv zeta. eexists.
  exact (Legacy_DescribeGlobal_outcome (fun _ => None) (fun _ => inr ∅)
           (Sample.legacy_world
              (Sample.always
                 (mkResponse 500
                    (mkBody "{}" (Some (ExternalError "unexpected EOF")))))
              "43.0")
           (mkResponse 500 (mkBody "{}" (Some (ExternalError "unexpected EOF"))))
           eq_refl eq_refl).
Defined.

Lemma Current_operations_keep_client_witness :
  let w := Sample.world (Sample.always (mkResponse 201 (NewBuffer "object1"))) in
  exists r w',
    Current.CreateSObject Sample.env Sample.case [] w = Ret (r, w')
    /\ client w' = client w.
Proof.
  cbv zeta.
  assert (Hrun : exists r w',
    Current.CreateSObject Sample.env Sample.case []
      (Sample.world (Sample.always (mkResponse 201 (NewBuffer "object1"))))
    = Ret (r, w')).
  { eexists _, _. vm_compute. reflexivity. }
  destruct Hrun as (r & w' & Hrun). exists r, w'. split; [exact Hrun|].
  destruct (Current_operations_keep_client Sample.env
              (Sample.world (Sample.always (mkResponse 201 (NewBuffer "object1"))))
              w')
    as (_ & _ & Hcreate & _).
  exact (Hcreate _ _ _ Hrun).
Defined.
